(** * SecureVox native transcription boundary

    A shallow embedding of the two native bindings of the repository,

    - [windows/src/SecureVox.Native/whisper_wrapper.cpp] (module [Windows]),
    - [android/app/src/main/cpp/whisper_jni.cpp] (module [Android]),

    over an abstract model of the external whisper engine.

    Conventions of the embedding:
    - a pointer or handle ([void*], [jlong], function pointer, [jobject]) is
      its address, a [Z], with [0] for [nullptr];
    - a [const char*] / [const float*] argument is [option] of the pointed
      contents, [None] for [nullptr];
    - the bytes a [const char*] points at are a [string]; the C loops that
      stop at the terminating NUL stop at the first zero character;
    - [int], [int64_t] are [Z]; the [double]s the code computes are all
      integer valued and are kept as the [Z] they denote;
    - the engine is a record of functions over an abstract engine state. *)

From Stdlib Require Import ZArith List String Ascii Bool Lia DecimalString.
Import ListNotations.
Open Scope string_scope.
Open Scope Z_scope.

(** * Part I: the program *)

(** ** C strings *)

(** The characters of a NUL-terminated buffer: what [strlen], [strcpy] and a
    loop that runs up to the terminating NUL see of the bytes at [s]. *)
Fixpoint c_str (s : string) : string :=
  match s with
  | EmptyString => EmptyString
  | String c s' => if Ascii.eqb c zero then EmptyString else String c (c_str s')
  end.

Fixpoint nul_free (s : string) : bool :=
  match s with
  | EmptyString => true
  | String c s' => negb (Ascii.eqb c zero) && nul_free s'
  end.

(** The double quote character and the one-character string holding it. *)
Definition dquote : ascii := "034".
Definition q : string := String dquote EmptyString.

(** ** Numbers *)

(** [std::to_string(int)]: the decimal numeral, with a minus sign when
    negative. *)
Definition to_string_int (z : Z) : string := NilZero.string_of_int (Z.to_int z).

(** [static_cast<int>] of an [unsigned]: reduction modulo 2^32 into the
    signed range. *)
Definition int_of_unsigned (u : Z) : Z :=
  let m := u mod 2 ^ 32 in
  if m <? 2 ^ 31 then m else m - 2 ^ 32.

(** Rounding of an integer to the nearest IEEE-754 binary64 value, ties to
    even: an integer of more than 53 significant bits loses its low bits.
    This is the conversion [int64_t -> double], and the rounding of an
    exact product. All values met here are far below the overflow
    threshold of binary64, and the results are again integers. *)
Definition round_binary64 (z : Z) : Z :=
  let a := Z.abs z in
  let e := Z.log2 a - 52 in
  if e <=? 0 then z
  else
    let m := Z.shiftr a e in
    let r := Z.land a (Z.ones e) in
    let half := Z.shiftl 1 (e - 1) in
    let m' := if (half <? r) || ((r =? half) && Z.odd m) then m + 1 else m in
    Z.sgn z * Z.shiftl m' e.

(** [t * 10.0] for [int64_t t]: [t] is converted to [double], the product is
    rounded to [double]. *)
Definition times_ten (t : Z) : Z := round_binary64 (round_binary64 t * 10).

(** [std::to_string(double)], that is [printf] with [%f], at an integer
    valued double: the exact decimal numeral and six zero decimals. *)
Definition to_string_double (v : Z) : string := to_string_int v ++ ".000000".

(** ** JSON escaping

    The [switch] on the current character of whisper_wrapper.cpp:127-134 and of
    whisper_jni.cpp:148-155 (the two are the same text). *)
Definition escape_char (c : ascii) : string :=
  match c with
  | "034"%char => String "\" (String "034" EmptyString)
  | "\"%char => "\\"
  | "010"%char => "\n"
  | "013"%char => "\r"
  | "009"%char => "\t"
  | _ => String c EmptyString
  end.

(** The loop over [p], from [text] to the terminating NUL, that appends the
    escaped form of each character to [escapedText]. *)
Fixpoint escape_loop (p : string) (escapedText : string) : string :=
  match p with
  | EmptyString => escapedText
  | String c p' =>
      if Ascii.eqb c zero then escapedText
      else escape_loop p' (escapedText ++ escape_char c)
  end.

(** The five characters the encoder rewrites. *)
Definition is_special (c : ascii) : bool :=
  Ascii.eqb c "034" || Ascii.eqb c "\" || Ascii.eqb c "010"
  || Ascii.eqb c "013" || Ascii.eqb c "009".

(** The letter that follows the backslash in the escaped form. *)
Definition escape_letter (c : ascii) : ascii :=
  if Ascii.eqb c "010" then "n"%char
  else if Ascii.eqb c "013" then "r"%char
  else if Ascii.eqb c "009" then "t"%char
  else c.

(** The inverse the exchange format's consumers apply: exactly the five
    two-character sequences are decoded, everything else is kept. This
    definition follows the specification's words, not the source. *)
Definition unescape_letter (c : ascii) : option ascii :=
  match c with
  | "034"%char => Some "034"%char
  | "\"%char => Some "\"%char
  | "n"%char => Some "010"%char
  | "r"%char => Some "013"%char
  | "t"%char => Some "009"%char
  | _ => None
  end.

Fixpoint unescape_five (s : string) : string :=
  match s with
  | EmptyString => EmptyString
  | String c tl =>
      if Ascii.eqb c "\" then
        match tl with
        | EmptyString => String c EmptyString
        | String d rest =>
            match unescape_letter d with
            | Some x => String x (unescape_five rest)
            | None => String c (unescape_five tl)
            end
        end
      else String c (unescape_five tl)
  end.

Fixpoint flat_map_string (f : ascii -> string) (s : string) : string :=
  match s with
  | EmptyString => EmptyString
  | String c s' => f c ++ flat_map_string f s'
  end.


(** ** The engine interface (whisper.h)

    The engine is external to the repository. It is a record of functions
    over an abstract engine state [E], which holds every loaded context and
    the result of the last run on each; [float] is the type of an audio
    sample, which the boundary never inspects. *)

Inductive whisper_sampling_strategy :=
| WHISPER_SAMPLING_GREEDY
| WHISPER_SAMPLING_BEAM_SEARCH.

Record whisper_context_params := { use_gpu : bool; gpu_device : Z }.

(** The progress callback slot of the run parameters together with its
    user-data pointer: the closure the engine calls at each progress tick. *)
Inductive progress_relay :=
| relay_none                              (* no callback *)
| relay_native (callback user_data : Z)   (* whisper_wrapper.cpp:89-97 *)
| relay_jni (callback method : Z).        (* whisper_jni.cpp:109-117 *)

(** A call made into the host from a progress relay. *)
Inductive host_call :=
| call_function (callback progress user_data : Z)
| call_void_method (callback method progress : Z).

(** The body of the two relays: what a progress tick makes them do. *)
Definition relay_fire (r : progress_relay) (progress : Z) : list host_call :=
  match r with
  | relay_none => []
  | relay_native callback user_data =>
      if callback =? 0 then [] else [call_function callback progress user_data]
  | relay_jni callback method =>
      if (callback =? 0) || (method =? 0) then []
      else [call_void_method callback method progress]
  end.

Record whisper_full_params := {
  strategy : whisper_sampling_strategy;
  n_threads : Z;
  offset_ms : Z;
  translate : bool;
  no_context : bool;
  single_segment : bool;
  print_special : bool;
  print_progress : bool;
  print_realtime : bool;
  print_timestamps : bool;
  language : string;
  progress_callback : progress_relay
}.

(** The callback a parameter record carries. *)
Definition installed_callback (params : whisper_full_params) : progress_relay :=
  progress_callback params.

Record whisper (E float : Type) := {
  whisper_context_default_params : whisper_context_params;
  whisper_init_from_file_with_params :
    E -> string -> whisper_context_params -> Z * E;
  whisper_free : E -> Z -> E;
  whisper_full_default_params : whisper_sampling_strategy -> whisper_full_params;
  whisper_full : E -> Z -> whisper_full_params -> list float -> Z -> Z * E;
  whisper_full_n_segments : E -> Z -> Z;
  whisper_full_get_segment_text : E -> Z -> Z -> option string;
  whisper_full_get_segment_t0 : E -> Z -> Z -> Z;
  whisper_full_get_segment_t1 : E -> Z -> Z -> Z;
  whisper_print_system_info : E -> string;
  whisper_is_multilingual : E -> Z -> bool
}.

Arguments whisper_context_default_params {E float}.
Arguments whisper_init_from_file_with_params {E float}.
Arguments whisper_free {E float}.
Arguments whisper_full_default_params {E float}.
Arguments whisper_full {E float}.
Arguments whisper_full_n_segments {E float}.
Arguments whisper_full_get_segment_text {E float}.
Arguments whisper_full_get_segment_t0 {E float}.
Arguments whisper_full_get_segment_t1 {E float}.
Arguments whisper_print_system_info {E float}.
Arguments whisper_is_multilingual {E float}.

(** The calls that enter the engine, as the boundary makes them. The getters
    of the last result and the default-parameter constructors only read and
    are not recorded. *)
Inductive engine_call :=
| called_init (path : string) (cparams : whisper_context_params)
| called_free (ctx : Z)
| called_full (ctx : Z) (params : whisper_full_params) (n_samples : Z)
| called_system_info
| called_is_multilingual (ctx : Z).

(** The pieces of the JSON object that hold a double quote. *)
Definition lit_text_open : string := Eval cbv in (q ++ "text" ++ q ++ ":" ++ q).
Definition lit_text_close : string := Eval cbv in (q ++ ",").
Definition lit_start : string := Eval cbv in (q ++ "start" ++ q ++ ":").
Definition lit_end : string := Eval cbv in (q ++ "end" ++ q ++ ":").

(** ** windows/src/SecureVox.Native/whisper_wrapper.cpp *)

Module Windows.
Section Wrapper.
Context {E float : Type}.
Variable W : whisper E float.
(** [std::thread::hardware_concurrency()], an [unsigned]. *)
Variable hardware_concurrency : Z.

(** The process state the wrapper works on: its global [g_last_error], the
    engine, and the record of the calls made into the engine. The mutex
    that guards [g_last_error] has no effect on a sequential run and is
    not modelled. *)
Record state := {
  g_last_error : string;
  engine : E;
  calls : list engine_call
}.

Definition initial (e : E) : state :=
  {| g_last_error := EmptyString; engine := e; calls := [] |}.

Definition set_error (error : string) (st : state) : state :=
  {| g_last_error := error; engine := engine st; calls := calls st |}.

(** The state after a call into the engine that left it in [e']. *)
Definition entered (c : engine_call) (e' : E) (st : state) : state :=
  {| g_last_error := g_last_error st; engine := e'; calls := calls st ++ [c] |}.

Definition whisper_wrapper_init (st : state) (model_path : option string)
  : Z * state :=
  match model_path with
  | None => (0, set_error "Model path is null" st)
  | Some path =>
      let cparams := whisper_context_default_params W in
      let cparams := {| use_gpu := false; gpu_device := gpu_device cparams |} in
      let '(ctx, e') :=
        whisper_init_from_file_with_params W (engine st) path cparams in
      let st := entered (called_init path cparams) e' st in
      if ctx =? 0 then
        (0, set_error ("Failed to load model from: " ++ c_str path) st)
      else (ctx, st)
  end.

Definition whisper_wrapper_free (st : state) (ctx : Z) : state :=
  if negb (ctx =? 0) then
    entered (called_free ctx) (whisper_free W (engine st) ctx) st
  else st.

(** The parameters of a run, lines 72-98. *)
Definition transcribe_params (language : option string)
    (progress_callback user_data : Z) : whisper_full_params :=
  let params := whisper_full_default_params W WHISPER_SAMPLING_GREEDY in
  {| strategy := strategy params;
     n_threads := Z.min 4 (int_of_unsigned hardware_concurrency);
     offset_ms := 0;
     translate := false;
     no_context := true;
     single_segment := false;
     print_special := false;
     print_progress := false;
     print_realtime := false;
     print_timestamps := true;
     language := match language with Some l => l | None => "en" end;
     progress_callback :=
       if negb (progress_callback =? 0)
       then relay_native progress_callback user_data
       else installed_callback params |}.

(** One round of the loop of lines 112-143 for segment [i]. *)
Definition append_segment (e : E) (ctx i : Z) (jsonResult : string) : string :=
  let text := whisper_full_get_segment_text W e ctx i in
  let t0 := whisper_full_get_segment_t0 W e ctx i in
  let t1 := whisper_full_get_segment_t1 W e ctx i in
  let startMs := times_ten t0 in
  let endMs := times_ten t1 in
  let jsonResult := if 0 <? i then jsonResult ++ "," else jsonResult in
  let escapedText :=
    match text with
    | Some p => escape_loop p EmptyString
    | None => EmptyString
    end in
  let jsonResult := jsonResult ++ "{" in
  let jsonResult := jsonResult ++ (lit_text_open ++ escapedText ++ lit_text_close) in
  let jsonResult := jsonResult ++ (lit_start ++ to_string_double startMs ++ ",") in
  let jsonResult := jsonResult ++ (lit_end ++ to_string_double endMs) in
  jsonResult ++ "}".

(** The loop [for (int i = 0; i < numSegments; i++)]: [todo] rounds are
    left, the next one is for segment [i]. *)
Fixpoint segments_loop (e : E) (ctx : Z) (todo : nat) (i : Z)
    (jsonResult : string) : string :=
  match todo with
  | O => jsonResult
  | S todo' =>
      segments_loop e ctx todo' (i + 1) (append_segment e ctx i jsonResult)
  end.

(** The result is [None] for [nullptr], and otherwise the contents of the
    buffer that [strcpy] filled. *)
Definition whisper_wrapper_transcribe (st : state) (ctx : Z)
    (audio_data : option (list float)) (n_samples : Z)
    (language : option string) (progress_callback user_data : Z)
  : option string * state :=
  if ctx =? 0 then (None, set_error "Context is null" st)
  else
    match audio_data, n_samples <=? 0 with
    | Some samples, false =>
        let params := transcribe_params language progress_callback user_data in
        let '(result, e') := whisper_full W (engine st) ctx params samples n_samples in
        let st := entered (called_full ctx params n_samples) e' st in
        if negb (result =? 0) then
          (None,
           set_error ("Transcription failed with code: " ++ to_string_int result) st)
        else
          let jsonResult := "[" in
          let numSegments := whisper_full_n_segments W e' ctx in
          let jsonResult :=
            segments_loop e' ctx (Z.to_nat numSegments) 0 jsonResult in
          let jsonResult := jsonResult ++ "]" in
          (Some (c_str jsonResult), st)
    | _, _ => (None, set_error "Invalid audio data" st)
    end.

(** Releasing the returned string changes nothing that is modelled. *)
Definition whisper_wrapper_free_string (st : state) (str : option string) : state :=
  st.

Definition whisper_wrapper_get_system_info (st : state) : option string * state :=
  (Some (whisper_print_system_info W (engine st)),
   entered called_system_info (engine st) st).

Definition whisper_wrapper_is_multilingual (st : state) (ctx : Z) : Z * state :=
  if ctx =? 0 then (0, st)
  else
    (if whisper_is_multilingual W (engine st) ctx then 1 else 0,
     entered (called_is_multilingual ctx) (engine st) st).

(** [g_last_error.c_str()]: a pointer into the string object, never
    [nullptr]. *)
Definition whisper_wrapper_get_last_error (st : state) : option string :=
  Some (g_last_error st).

(** *** Sequences of calls *)

Inductive op :=
| op_init (model_path : option string)
| op_free (ctx : Z)
| op_transcribe (ctx : Z) (audio_data : option (list float)) (n_samples : Z)
    (language : option string) (progress_callback user_data : Z)
| op_free_string (str : option string)
| op_get_system_info
| op_is_multilingual (ctx : Z)
| op_get_last_error.

Inductive ret :=
| ret_void
| ret_ptr (p : Z)
| ret_int (n : Z)
| ret_str (s : option string).

Definition step (st : state) (o : op) : ret * state :=
  match o with
  | op_init model_path =>
      let '(p, st') := whisper_wrapper_init st model_path in (ret_ptr p, st')
  | op_free ctx => (ret_void, whisper_wrapper_free st ctx)
  | op_transcribe ctx audio_data n_samples language progress_callback user_data =>
      let '(s, st') :=
        whisper_wrapper_transcribe st ctx audio_data n_samples language
          progress_callback user_data in
      (ret_str s, st')
  | op_free_string str => (ret_void, whisper_wrapper_free_string st str)
  | op_get_system_info =>
      let '(s, st') := whisper_wrapper_get_system_info st in (ret_str s, st')
  | op_is_multilingual ctx =>
      let '(n, st') := whisper_wrapper_is_multilingual st ctx in (ret_int n, st')
  | op_get_last_error => (ret_str (whisper_wrapper_get_last_error st), st)
  end.

Fixpoint run (st : state) (ops : list op) : state :=
  match ops with
  | [] => st
  | o :: ops' => run (snd (step st o)) ops'
  end.

(** An operation that reports failure: [init] or [transcribe] returning
    [nullptr]. *)
Definition reports_failure (o : op) (r : ret) : bool :=
  match o, r with
  | op_init _, ret_ptr p => p =? 0
  | op_transcribe _ _ _ _ _ _, ret_str None => true
  | _, _ => false
  end.

Definition fails (st : state) (o : op) : bool :=
  reports_failure o (fst (step st o)).

Fixpoint none_fails (st : state) (ops : list op) : bool :=
  match ops with
  | [] => true
  | o :: ops' => negb (fails st o) && none_fails (snd (step st o)) ops'
  end.
End Wrapper.

Arguments state : clear implicits.
Arguments op : clear implicits.
End Windows.

(** ** android/app/src/main/cpp/whisper_jni.cpp *)

Module Android.

Inductive log_priority := ANDROID_LOG_INFO | ANDROID_LOG_ERROR.

Section Jni.
Context {E float : Type}.
Variable W : whisper E float.
Variable hardware_concurrency : Z.
(** [GetMethodID(GetObjectClass(callback), "onProgress", "(I)V")]: the
    method id found for a callback object, [0] when there is none. *)
Variable GetMethodID_onProgress : Z -> Z.

(** The binding keeps no error string: it has the system log, the engine,
    and the record of the calls made into the engine. Its global
    [g_context] is never read or written and is left out. *)
Record state := {
  logcat : list (log_priority * string);
  engine : E;
  calls : list engine_call
}.

Definition initial (e : E) : state :=
  {| logcat := []; engine := e; calls := [] |}.

Definition LOGI (msg : string) (st : state) : state :=
  {| logcat := logcat st ++ [(ANDROID_LOG_INFO, msg)];
     engine := engine st; calls := calls st |}.

Definition LOGE (msg : string) (st : state) : state :=
  {| logcat := logcat st ++ [(ANDROID_LOG_ERROR, msg)];
     engine := engine st; calls := calls st |}.

Definition entered (c : engine_call) (e' : E) (st : state) : state :=
  {| logcat := logcat st; engine := e'; calls := calls st ++ [c] |}.

(** A native method returns a value and a state, or has no defined result:
    [None] stands for a call that JNI and C++ leave undefined, namely a JNI
    function applied to a null reference ([GetStringUTFChars],
    [GetArrayLength]) and a read through a null pointer; such a call is not
    followed any further. A [jstring] is [option string]; the conversions
    between Java strings and the bytes [GetStringUTFChars] and
    [NewStringUTF] exchange are taken as the identity. *)
Definition native (A : Type) : Type := option (A * state).

Definition Java_com_securevox_app_whisper_WhisperLib_initContext
    (st : state) (modelPath : option string) : native Z :=
  match modelPath with
  | None => None
  | Some path =>
      let st := LOGI ("Loading model from: " ++ c_str path) st in
      let cparams := whisper_context_default_params W in
      let cparams := {| use_gpu := false; gpu_device := gpu_device cparams |} in
      let '(ctx, e') :=
        whisper_init_from_file_with_params W (engine st) path cparams in
      let st := entered (called_init path cparams) e' st in
      if ctx =? 0 then Some (0, LOGE "Failed to load model" st)
      else Some (ctx, LOGI "Model loaded successfully" st)
  end.

Definition Java_com_securevox_app_whisper_WhisperLib_freeContext
    (st : state) (contextPtr : Z) : native unit :=
  let ctx := contextPtr in
  if negb (ctx =? 0) then
    Some (tt, LOGI "Context freed"
                (entered (called_free ctx) (whisper_free W (engine st) ctx) st))
  else Some (tt, st).

(** The parameters of a run, lines 79-117. *)
Definition transcribe_params (lang : string) (progressCallback : Z)
  : whisper_full_params :=
  let params := whisper_full_default_params W WHISPER_SAMPLING_GREEDY in
  let onProgressMethod :=
    if negb (progressCallback =? 0)
    then GetMethodID_onProgress progressCallback else 0 in
  {| strategy := strategy params;
     n_threads := Z.min 4 (int_of_unsigned hardware_concurrency);
     offset_ms := 0;
     translate := false;
     no_context := true;
     single_segment := false;
     print_special := false;
     print_progress := false;
     print_realtime := false;
     print_timestamps := true;
     language := lang;
     progress_callback := relay_jni progressCallback onProgressMethod |}.

(** One round of the loop of lines 134-163 for segment [i]; the text is
    read without a null check. *)
Definition append_segment (e : E) (ctx i : Z) (jsonResult : string)
  : option string :=
  let text := whisper_full_get_segment_text W e ctx i in
  let t0 := whisper_full_get_segment_t0 W e ctx i in
  let t1 := whisper_full_get_segment_t1 W e ctx i in
  let startMs := times_ten t0 in
  let endMs := times_ten t1 in
  let jsonResult := if 0 <? i then jsonResult ++ "," else jsonResult in
  match text with
  | None => None
  | Some p =>
      let escapedText := escape_loop p EmptyString in
      let jsonResult := jsonResult ++ "{" in
      let jsonResult := jsonResult ++ (lit_text_open ++ escapedText ++ lit_text_close) in
      let jsonResult := jsonResult ++ (lit_start ++ to_string_double startMs ++ ",") in
      let jsonResult := jsonResult ++ (lit_end ++ to_string_double endMs) in
      Some (jsonResult ++ "}")
  end.

Fixpoint segments_loop (e : E) (ctx : Z) (todo : nat) (i : Z)
    (jsonResult : string) : option string :=
  match todo with
  | O => Some jsonResult
  | S todo' =>
      match append_segment e ctx i jsonResult with
      | None => None
      | Some jsonResult => segments_loop e ctx todo' (i + 1) jsonResult
      end
  end.

Definition Java_com_securevox_app_whisper_WhisperLib_transcribeAudio
    (st : state) (contextPtr : Z)
    (audioData : option (list float)) (language : option string)
    (progressCallback : Z) : native (option string) :=
  let ctx := contextPtr in
  if ctx =? 0 then Some (Some EmptyString, LOGE "Context is null" st)
  else
    match audioData with
    | None => None
    | Some audioPtr =>
        let audioLen := Z.of_nat (List.length audioPtr) in
        let st := LOGI ("Transcribing " ++ to_string_int audioLen ++ " samples") st in
        match language with
        | None => None
        | Some lang =>
            let params := transcribe_params lang progressCallback in
            let '(result, e') :=
              whisper_full W (engine st) ctx params audioPtr audioLen in
            let st := entered (called_full ctx params audioLen) e' st in
            if negb (result =? 0) then
              Some (Some EmptyString,
                    LOGE ("Transcription failed with code: "
                          ++ to_string_int result) st)
            else
              let jsonResult := "[" in
              let numSegments := whisper_full_n_segments W e' ctx in
              match segments_loop e' ctx (Z.to_nat numSegments) 0 jsonResult with
              | None => None
              | Some jsonResult =>
                  let jsonResult := jsonResult ++ "]" in
                  Some (Some (c_str jsonResult),
                        LOGI ("Transcription complete: "
                              ++ to_string_int numSegments ++ " segments") st)
              end
        end
    end.

Definition Java_com_securevox_app_whisper_WhisperLib_getSystemInfo
    (st : state) : native (option string) :=
  Some (Some (c_str (whisper_print_system_info W (engine st))),
        entered called_system_info (engine st) st).

Definition Java_com_securevox_app_whisper_WhisperLib_isMultilingual
    (st : state) (contextPtr : Z) : native bool :=
  let ctx := contextPtr in
  if ctx =? 0 then Some (false, st)
  else
    Some (whisper_is_multilingual W (engine st) ctx,
          entered (called_is_multilingual ctx) (engine st) st).
End Jni.

Arguments state : clear implicits.
End Android.

(** ** A scripted engine

    An engine for running the boundary on concrete inputs: every run ends
    with the scripted result code and leaves the scripted segments; a model
    loads unless its path is empty. Its state is the segment list of the
    last run, its samples are integers. *)

Definition segment : Type := option string * Z * Z.

Definition scripted (code : Z) (segs : list segment) : whisper (list segment) Z :=
  {| whisper_context_default_params := {| use_gpu := true; gpu_device := 0 |};
     whisper_init_from_file_with_params := fun e path _ =>
       (match c_str path with EmptyString => 0 | _ => 4096 end, e);
     whisper_free := fun e _ => e;
     whisper_full_default_params := fun s =>
       {| strategy := s; n_threads := 4; offset_ms := 0; translate := false;
          no_context := true; single_segment := false; print_special := false;
          print_progress := true; print_realtime := false;
          print_timestamps := true; language := "en";
          progress_callback := relay_none |};
     whisper_full := fun _ _ _ _ _ => (code, segs);
     whisper_full_n_segments := fun e _ => Z.of_nat (List.length e);
     whisper_full_get_segment_text := fun e _ i =>
       match nth_error e (Z.to_nat i) with Some (t, _, _) => t | None => None end;
     whisper_full_get_segment_t0 := fun e _ i =>
       match nth_error e (Z.to_nat i) with Some (_, t0, _) => t0 | None => 0 end;
     whisper_full_get_segment_t1 := fun e _ i =>
       match nth_error e (Z.to_nat i) with Some (_, _, t1) => t1 | None => 0 end;
     whisper_print_system_info := fun _ => "AVX = 1 | NEON = 0";
     whisper_is_multilingual := fun _ _ => true |}.
(** Inputs for concrete runs: two segments, and calls on the Windows
    wrapper. *)
Definition two_segments : list segment :=
  [(Some ("He said " ++ q ++ "hi" ++ q), 0, 150); (Some "Bye", 150, 320)].

Definition load_model : list (Windows.op Z) :=
  [Windows.op_init (Some "ggml-tiny.bin")].

Definition null_transcribe : Windows.op Z :=
  Windows.op_transcribe 0 (Some [0; 0]) 2 (Some "en") 0 0.

Definition queries : list (Windows.op Z) :=
  [Windows.op_is_multilingual 0; Windows.op_get_system_info;
   Windows.op_transcribe 4096 (Some [0; 0]) 2 None 0 0;
   Windows.op_free 4096].

(** ** The exchange format

    The shape of the output as the specification words it, to compare the
    loops of the two bindings with. *)

(** [{"text":"<escaped>","start":<start>,"end":<end>}]. *)
Definition json_object (escaped start_field end_field : string) : string :=
  "{" ++ lit_text_open ++ escaped ++ lit_text_close
      ++ lit_start ++ start_field ++ ","
      ++ lit_end ++ end_field ++ "}".

(** A millisecond count as the format has it: the numeral and six zero
    decimals. *)
Definition milliseconds (ms : Z) : string := to_string_int ms ++ ".000000".

(** The objects between brackets, one comma between neighbours. *)
Definition json_array (objects : list string) : string :=
  "[" ++ String.concat "," objects ++ "]".

(** The bytes of a segment text up to its terminator; a null text has
    none. *)
Definition text_bytes (text : option string) : string :=
  match text with
  | Some p => c_str p
  | None => EmptyString
  end.

(** The object of one segment. *)
Definition encode_segment (seg : segment) : string :=
  let '(text, t0, t1) := seg in
  json_object (flat_map_string escape_char (text_bytes text))
    (to_string_double (times_ten t0)) (to_string_double (times_ten t1)).

(** [k] consecutive indices from [i]. *)
Fixpoint indices (i : Z) (k : nat) : list Z :=
  match k with
  | O => []
  | S k' => i :: indices (i + 1) k'
  end.

Section Segments.
Context {E float : Type}.
Variable W : whisper E float.

Definition segment_at (e : E) (ctx i : Z) : segment :=
  (whisper_full_get_segment_text W e ctx i,
   whisper_full_get_segment_t0 W e ctx i,
   whisper_full_get_segment_t1 W e ctx i).

(** The segments the engine holds for [ctx], in its order. *)
Definition engine_segments (e : E) (ctx : Z) : list segment :=
  map (segment_at e ctx)
      (indices 0 (Z.to_nat (whisper_full_n_segments W e ctx))).
End Segments.

(** Every object preceded by a comma. *)
Fixpoint comma_prefixed (objects : list string) : string :=
  match objects with
  | [] => EmptyString
  | o :: objects' => "," ++ o ++ comma_prefixed objects'
  end.


(** ** The error messages of the Windows wrapper

    The message that belongs to a failing call made with the engine in
    state [e], as the specification's error taxonomy has it: invalid input,
    a model that the engine does not load, and a run that the engine ends
    with a non-zero code, with that code. A call has at most one message,
    and a call that does not fail has none. *)
Inductive error_message {E float : Type} (W : whisper E float)
    (hardware_concurrency : Z) (e : E)
  : Windows.op float -> string -> Prop :=
| msg_path_null :
    error_message W hardware_concurrency e (Windows.op_init None)
      "Model path is null"
| msg_load (path : string) :
    fst (whisper_init_from_file_with_params W e path
           {| use_gpu := false;
              gpu_device := gpu_device (whisper_context_default_params W) |})
    = 0 ->
    error_message W hardware_concurrency e (Windows.op_init (Some path))
      ("Failed to load model from: " ++ c_str path)
| msg_context_null audio_data n_samples language progress_callback user_data :
    error_message W hardware_concurrency e
      (Windows.op_transcribe 0 audio_data n_samples language
         progress_callback user_data)
      "Context is null"
| msg_invalid_audio ctx audio_data n_samples language progress_callback user_data :
    ctx <> 0 ->
    audio_data = None \/ n_samples <= 0 ->
    error_message W hardware_concurrency e
      (Windows.op_transcribe ctx audio_data n_samples language
         progress_callback user_data)
      "Invalid audio data"
| msg_engine_code ctx samples n_samples language progress_callback user_data code :
    ctx <> 0 ->
    0 < n_samples ->
    fst (whisper_full W e ctx
           (Windows.transcribe_params W hardware_concurrency language
              progress_callback user_data)
           samples n_samples)
    = code ->
    code <> 0 ->
    error_message W hardware_concurrency e
      (Windows.op_transcribe ctx (Some samples) n_samples language
         progress_callback user_data)
      ("Transcription failed with code: " ++ to_string_int code).

(** ** Vocabulary for the rest of the two files *)

(** The three characters that must not appear raw inside a one-line JSON
    string: line feed, carriage return, tab. *)
Definition is_raw_break (c : ascii) : bool :=
  Ascii.eqb c "010" || Ascii.eqb c "013" || Ascii.eqb c "009".

Fixpoint has_none (bad : ascii -> bool) (s : string) : bool :=
  match s with
  | EmptyString => true
  | String c s' => negb (bad c) && has_none bad s'
  end.

(** How many of the characters of [s] the encoder rewrites. *)
Fixpoint count_special (s : string) : nat :=
  match s with
  | EmptyString => O
  | String c s' => ((if is_special c then 1 else 0) + count_special s')%nat
  end.

(** The settings both bindings fix for every run. *)
Definition fixed_settings (p : whisper_full_params) : Prop :=
  n_threads p <= 4
  /\ offset_ms p = 0
  /\ translate p = false
  /\ no_context p = true
  /\ single_segment p = false
  /\ print_special p = false
  /\ print_progress p = false
  /\ print_realtime p = false
  /\ print_timestamps p = true.

(** What holds of every call the Windows wrapper makes into the engine. *)
Definition windows_call_ok (c : engine_call) : Prop :=
  match c with
  | called_init _ cparams => use_gpu cparams = false
  | called_free ctx => ctx <> 0
  | called_full ctx params n_samples =>
      ctx <> 0 /\ 0 < n_samples /\ fixed_settings params
  | called_system_info => True
  | called_is_multilingual ctx => ctx <> 0
  end.

(** Sequences of calls of the native methods of the Android binding. *)
Inductive android_op {float : Type} :=
| jni_initContext (modelPath : option string)
| jni_freeContext (contextPtr : Z)
| jni_transcribeAudio (contextPtr : Z) (audioData : option (list float))
    (language : option string) (progressCallback : Z)
| jni_getSystemInfo
| jni_isMultilingual (contextPtr : Z).

Arguments android_op : clear implicits.

(** What holds of every call the Android binding makes into the engine in
    the course of the native calls [ops]: the call comes from one of them,
    with its arguments. A model is loaded from the path given, with the GPU
    off; a context that is freed, queried or run on is the one given and is
    not null; a run has the length of the array given as its sample count,
    which can be zero, the language given, and the fixed settings. *)
Definition android_call_ok {float : Type} (ops : list (android_op float))
    (c : engine_call) : Prop :=
  match c with
  | called_init path cparams =>
      use_gpu cparams = false /\ In (jni_initContext (Some path)) ops
  | called_free ctx => ctx <> 0 /\ In (jni_freeContext ctx) ops
  | called_full ctx params n_samples =>
      ctx <> 0
      /\ fixed_settings params
      /\ exists audioPtr lang progressCallback,
           In (jni_transcribeAudio ctx (Some audioPtr) (Some lang)
                 progressCallback) ops
           /\ n_samples = Z.of_nat (List.length audioPtr)
           /\ language params = lang
  | called_system_info => In jni_getSystemInfo ops
  | called_is_multilingual ctx => ctx <> 0 /\ In (jni_isMultilingual ctx) ops
  end.

Section AndroidSequences.
Context {E float : Type}.
Variable W : whisper E float.
Variable hardware_concurrency : Z.
Variable GetMethodID_onProgress : Z -> Z.

(** The state a native method leaves, when it returns. *)
Definition android_step (st : Android.state E) (o : android_op float)
  : option (Android.state E) :=
  match o with
  | jni_initContext modelPath =>
      option_map snd
        (Android.Java_com_securevox_app_whisper_WhisperLib_initContext W st
           modelPath)
  | jni_freeContext contextPtr =>
      option_map snd
        (Android.Java_com_securevox_app_whisper_WhisperLib_freeContext W st
           contextPtr)
  | jni_transcribeAudio contextPtr audioData language progressCallback =>
      option_map snd
        (Android.Java_com_securevox_app_whisper_WhisperLib_transcribeAudio W
           hardware_concurrency GetMethodID_onProgress st contextPtr audioData
           language progressCallback)
  | jni_getSystemInfo =>
      option_map snd
        (Android.Java_com_securevox_app_whisper_WhisperLib_getSystemInfo W st)
  | jni_isMultilingual contextPtr =>
      option_map snd
        (Android.Java_com_securevox_app_whisper_WhisperLib_isMultilingual W st
           contextPtr)
  end.

Fixpoint android_run (st : Android.state E) (ops : list (android_op float))
  : option (Android.state E) :=
  match ops with
  | [] => Some st
  | o :: ops' =>
      match android_step st o with
      | Some st' => android_run st' ops'
      | None => None
      end
  end.
End AndroidSequences.

(** A model load, a run and two queries on the Android binding. *)
Definition android_session : list (android_op Z) :=
  [jni_initContext (Some "ggml-tiny.bin");
   jni_transcribeAudio 4096 (Some [0; 0]) (Some "en") 0;
   jni_isMultilingual 4096;
   jni_getSystemInfo;
   jni_freeContext 4096].

(** * Part II: properties *)

(** ** Strings *)

Lemma append_nil_r (s : string) : s ++ EmptyString = s.
Proof. induction s as [|c s IH]; simpl; [reflexivity | now rewrite IH]. Qed.

Lemma append_assoc (s1 s2 s3 : string) : (s1 ++ s2) ++ s3 = s1 ++ (s2 ++ s3).
Proof. induction s1 as [|c s1 IH]; simpl; [reflexivity | now rewrite IH]. Qed.

Lemma c_str_nul_free (s : string) : nul_free s = true -> c_str s = s.
Proof.
  induction s as [|c s IH]; simpl; [reflexivity|].
  destruct (Ascii.eqb c zero); simpl; [discriminate|].
  intros H. now rewrite IH.
Qed.

Lemma nul_free_app (s1 s2 : string) :
  nul_free (s1 ++ s2) = nul_free s1 && nul_free s2.
Proof.
  induction s1 as [|c s1 IH]; simpl; [reflexivity|].
  now rewrite IH, andb_assoc.
Qed.

Lemma escape_loop_acc (p acc : string) :
  escape_loop p acc = acc ++ flat_map_string escape_char (c_str p).
Proof.
  revert acc. induction p as [|c p IH]; intros acc; simpl.
  - now rewrite append_nil_r.
  - destruct (Ascii.eqb c zero); simpl.
    + now rewrite append_nil_r.
    + now rewrite IH, append_assoc.
Qed.

Lemma escape_char_special (c : ascii) :
  is_special c = true ->
  escape_char c = String "\" (String (escape_letter c) EmptyString).
Proof.
  destruct c as [[] [] [] [] [] [] [] []]; simpl; intros H;
    try discriminate H; reflexivity.
Qed.

Lemma escape_char_other (c : ascii) :
  is_special c = false -> escape_char c = String c EmptyString.
Proof.
  destruct c as [[] [] [] [] [] [] [] []]; simpl; intros H;
    try discriminate H; reflexivity.
Qed.

Lemma unescape_escape_char (c : ascii) (s : string) :
  unescape_five (escape_char c ++ s) = String c (unescape_five s).
Proof.
  destruct c as [[] [] [] [] [] [] [] []]; reflexivity.
Qed.

Lemma unescape_flat_map (s : string) :
  unescape_five (flat_map_string escape_char s) = s.
Proof.
  induction s as [|c s IH]; simpl; [reflexivity|].
  now rewrite unescape_escape_char, IH.
Qed.

Lemma c_str_is_nul_free (s : string) : nul_free (c_str s) = true.
Proof.
  induction s as [|c s IH]; simpl; [reflexivity|].
  destruct (Ascii.eqb c zero) eqn:Hc; simpl; [reflexivity|].
  now rewrite Hc, IH.
Qed.

Lemma escape_char_nul_free (c : ascii) :
  Ascii.eqb c zero = false -> nul_free (escape_char c) = true.
Proof.
  destruct c as [[] [] [] [] [] [] [] []]; simpl; intros H;
    try discriminate H; reflexivity.
Qed.

Lemma escape_loop_nul_free (p : string) :
  nul_free (escape_loop p EmptyString) = true.
Proof.
  rewrite escape_loop_acc. simpl.
  induction p as [|c p IH]; simpl; [reflexivity|].
  destruct (Ascii.eqb c zero) eqn:Hc; simpl; [reflexivity|].
  now rewrite nul_free_app, escape_char_nul_free, IH.
Qed.

(** C4. For every segment text, a NUL-terminated byte string, the encoder
    rewrites exactly five characters, the double quote, the backslash, the
    line feed, the carriage return and the tab, into a backslash followed by
    the double quote, a backslash, [n], [r] and [t]; every other byte is
    copied as it is; and decoding exactly those five two-character sequences
    in the escaped text gives the text back. *)
Theorem escape_roundtrip (text : string) (Htext : nul_free text = true) :
  escape_char "034" = String "\" (String "034" EmptyString)
  /\ escape_char "\" = "\\"
  /\ escape_char "010" = "\n"
  /\ escape_char "013" = "\r"
  /\ escape_char "009" = "\t"
  /\ (forall c, is_special c = false -> escape_char c = String c EmptyString)
  /\ escape_loop text EmptyString = flat_map_string escape_char text
  /\ unescape_five (escape_loop text EmptyString) = text.
Proof.
  repeat split; try reflexivity.
  - apply escape_char_other.
  - rewrite escape_loop_acc. simpl. now rewrite c_str_nul_free.
  - rewrite escape_loop_acc. simpl.
    now rewrite c_str_nul_free, unescape_flat_map.
Qed.

Lemma escape_roundtrip_witness :
  let text := "say " ++ q ++ "a\b" ++ q ++ String "010" (String "013" (String "009" "!")) in
  nul_free text = true
  /\ escape_loop text EmptyString
     = "say \" ++ q ++ "a\\b\" ++ q ++ "\n\r\t!"
  /\ unescape_five (escape_loop text EmptyString) = text.
Proof.
  split; [reflexivity|].
  split; [reflexivity|].
  apply (escape_roundtrip
           ("say " ++ q ++ "a\b" ++ q ++ String "010" (String "013" (String "009" "!")))).
  reflexivity.
Defined.

(** ** Numbers *)

Lemma uint_string_nul_free (d : Decimal.uint) :
  nul_free (NilEmpty.string_of_uint d) = true.
Proof. induction d; simpl; auto. Qed.

Lemma to_string_int_nul_free (z : Z) : nul_free (to_string_int z) = true.
Proof.
  unfold to_string_int, NilZero.string_of_int, NilZero.string_of_uint.
  destruct (Z.to_int z) as [d|d]; destruct d; simpl;
    try reflexivity; apply uint_string_nul_free.
Qed.

Lemma to_string_double_nul_free (v : Z) : nul_free (to_string_double v) = true.
Proof.
  unfold to_string_double. now rewrite nul_free_app, to_string_int_nul_free.
Qed.

(** An integer of at most 53 significant bits is a binary64 value. *)
Lemma round_binary64_exact (z : Z) : Z.abs z <= 2 ^ 53 -> round_binary64 z = z.
Proof.
  intros Hz.
  assert (Hcases : Z.abs z < 2 ^ 53 \/ z = 2 ^ 53 \/ z = - 2 ^ 53) by lia.
  destruct Hcases as [Hlt | [-> | ->]]; try reflexivity.
  unfold round_binary64.
  assert (Hlog : Z.log2 (Z.abs z) < 53).
  { destruct (Z.eq_dec (Z.abs z) 0) as [H0 | H0].
    - rewrite H0. simpl. lia.
    - apply Z.log2_lt_pow2; lia. }
  destruct (Z.log2 (Z.abs z) - 52 <=? 0) eqn:He; [reflexivity|].
  apply Z.leb_gt in He. lia.
Qed.

Lemma times_ten_exact (t : Z) : Z.abs t * 10 <= 2 ^ 53 -> times_ten t = t * 10.
Proof.
  intros Ht. unfold times_ten.
  rewrite (round_binary64_exact t) by lia.
  apply round_binary64_exact. lia.
Qed.

(** ** Progress relays *)

(** With a callback, and on Android its method, each progress tick reaches
    the host once through either relay; without one, none does. *)
Lemma relay_fire_once (callback user_data method progress : Z) :
  callback <> 0 -> method <> 0 ->
  relay_fire (relay_native callback user_data) progress
  = [call_function callback progress user_data]
  /\ relay_fire (relay_jni callback method) progress
     = [call_void_method callback method progress].
Proof.
  intros Hc Hm. apply Z.eqb_neq in Hc, Hm. simpl. now rewrite Hc, Hm.
Qed.

Lemma relay_fire_null (method progress : Z) :
  relay_fire (relay_jni 0 method) progress = []
  /\ relay_fire relay_none progress = [].
Proof. split; reflexivity. Qed.

(** ** The segment loop *)

Lemma concat_comma_cons (o : string) (objects : list string) :
  String.concat "," (o :: objects) = o ++ comma_prefixed objects.
Proof.
  revert o. induction objects as [|o' objects IH]; intros o.
  - simpl. now rewrite append_nil_r.
  - change (String.concat "," (o :: o' :: objects))
      with (o ++ "," ++ String.concat "," (o' :: objects)).
    now rewrite IH.
Qed.

Lemma nul_free_comma_prefixed (objects : list string) :
  forallb nul_free objects = true -> nul_free (comma_prefixed objects) = true.
Proof.
  induction objects as [|o objects IH]; simpl; [reflexivity|].
  intros H. apply andb_prop in H as [Ho Hos].
  now rewrite nul_free_app, Ho, IH.
Qed.

Lemma nul_free_json_array (objects : list string) :
  forallb nul_free objects = true -> nul_free (json_array objects) = true.
Proof.
  intros H. unfold json_array.
  destruct objects as [|o objects].
  - reflexivity.
  - rewrite concat_comma_cons. simpl in H. apply andb_prop in H as [Ho Hos].
    simpl. now rewrite !nul_free_app, Ho, nul_free_comma_prefixed.
Qed.

Lemma nul_free_encode_segment (seg : segment) :
  nul_free (encode_segment seg) = true.
Proof.
  destruct seg as [[text t0] t1]. unfold encode_segment, json_object.
  assert (Hesc : nul_free (flat_map_string escape_char (text_bytes text)) = true).
  { destruct text as [p|]; simpl; [|reflexivity].
    pose proof (escape_loop_nul_free p) as H.
    rewrite escape_loop_acc in H. exact H. }
  rewrite !nul_free_app, Hesc, !to_string_double_nul_free. reflexivity.
Qed.

Lemma nul_free_encoded (segs : list segment) :
  forallb nul_free (map encode_segment segs) = true.
Proof.
  induction segs as [|seg segs IH]; simpl; [reflexivity|].
  now rewrite nul_free_encode_segment, IH.
Qed.

Section Loops.
Context {E float : Type}.
Variable W : whisper E float.

Lemma windows_append_segment (e : E) (ctx i : Z) (json : string) :
  Windows.append_segment W e ctx i json
  = json ++ (if 0 <? i then "," else EmptyString)
         ++ encode_segment (segment_at W e ctx i).
Proof.
  unfold Windows.append_segment, encode_segment, segment_at, json_object.
  assert (Hesc :
    match whisper_full_get_segment_text W e ctx i with
    | Some p => escape_loop p EmptyString
    | None => EmptyString
    end
    = flat_map_string escape_char
        (text_bytes (whisper_full_get_segment_text W e ctx i))).
  { destruct (whisper_full_get_segment_text W e ctx i) as [p|]; simpl;
      [|reflexivity].
    now rewrite escape_loop_acc. }
  rewrite Hesc.
  destruct (0 <? i); rewrite ?append_assoc; simpl; rewrite ?append_assoc;
    reflexivity.
Qed.

Lemma windows_loop_later (e : E) (ctx : Z) (k : nat) (i : Z) (json : string) :
  0 < i ->
  Windows.segments_loop W e ctx k i json
  = json ++ comma_prefixed (map encode_segment (map (segment_at W e ctx) (indices i k))).
Proof.
  revert i json. induction k as [|k IH]; intros i json Hi;
    cbn [Windows.segments_loop indices map comma_prefixed].
  - now rewrite append_nil_r.
  - rewrite IH by lia. rewrite windows_append_segment.
    apply Z.ltb_lt in Hi. rewrite Hi.
    now rewrite !append_assoc.
Qed.

Lemma windows_loop (e : E) (ctx : Z) (k : nat) :
  Windows.segments_loop W e ctx k 0 "[" ++ "]"
  = json_array (map encode_segment (map (segment_at W e ctx) (indices 0 k))).
Proof.
  unfold json_array. destruct k as [|k].
  - reflexivity.
  - cbn [Windows.segments_loop indices map].
    rewrite windows_loop_later by lia.
    rewrite windows_append_segment, concat_comma_cons.
    cbn [Z.ltb Z.compare]. now rewrite !append_assoc.
Qed.

(** The Android loop is the Windows loop as long as no text is null. *)
Lemma android_append_segment (e : E) (ctx i : Z) (json : string) :
  whisper_full_get_segment_text W e ctx i <> None ->
  Android.append_segment W e ctx i json
  = Some (Windows.append_segment W e ctx i json).
Proof.
  unfold Android.append_segment, Windows.append_segment.
  destruct (whisper_full_get_segment_text W e ctx i); [reflexivity|].
  intros H. now contradiction H.
Qed.

Lemma android_loop (e : E) (ctx : Z) (k : nat) (i : Z) (json : string) :
  (forall j, i <= j < i + Z.of_nat k ->
             whisper_full_get_segment_text W e ctx j <> None) ->
  Android.segments_loop W e ctx k i json
  = Some (Windows.segments_loop W e ctx k i json).
Proof.
  revert i json. induction k as [|k IH]; intros i json Htext; simpl.
  - reflexivity.
  - rewrite android_append_segment by (apply Htext; lia).
    apply IH. intros j Hj. apply Htext. lia.
Qed.
End Loops.

(** ** The transcribe operation, case by case *)

Section Transcribe.
Context {E float : Type}.
Variable W : whisper E float.
Variable hardware_concurrency : Z.
Variable GetMethodID_onProgress : Z -> Z.

Local Abbreviation wparams := (Windows.transcribe_params W hardware_concurrency).
Local Abbreviation wtranscribe := (Windows.whisper_wrapper_transcribe W hardware_concurrency).
Local Abbreviation aparams :=
  (Android.transcribe_params W hardware_concurrency GetMethodID_onProgress).
Local Abbreviation atranscribe :=
  (Android.Java_com_securevox_app_whisper_WhisperLib_transcribeAudio W
     hardware_concurrency GetMethodID_onProgress).

Lemma engine_segments_length (e : E) (ctx : Z) :
  List.length (map encode_segment (engine_segments W e ctx))
  = Z.to_nat (whisper_full_n_segments W e ctx).
Proof.
  unfold engine_segments. rewrite !length_map.
  generalize 0. induction (Z.to_nat (whisper_full_n_segments W e ctx));
    intros i; simpl; [reflexivity | now rewrite IHn].
Qed.

Lemma windows_json (e : E) (ctx : Z) :
  c_str (Windows.segments_loop W e ctx
           (Z.to_nat (whisper_full_n_segments W e ctx)) 0 "[" ++ "]")
  = json_array (map encode_segment (engine_segments W e ctx)).
Proof.
  rewrite windows_loop. fold (engine_segments W e ctx).
  apply c_str_nul_free, nul_free_json_array, nul_free_encoded.
Qed.

(** A run that gets as far as the engine. *)
Lemma windows_transcribe_run (st : Windows.state E) (ctx : Z)
    (samples : list float) (n_samples : Z) (language : option string)
    (progress_callback user_data : Z) (result : Z) (e' : E) :
  ctx <> 0 -> 0 < n_samples ->
  whisper_full W (Windows.engine st) ctx
    (wparams language progress_callback user_data) samples n_samples
  = (result, e') ->
  wtranscribe st ctx (Some samples) n_samples language progress_callback user_data
  = let st' :=
      Windows.entered
        (called_full ctx (wparams language progress_callback user_data) n_samples)
        e' st in
    if result =? 0 then
      (Some (json_array (map encode_segment (engine_segments W e' ctx))), st')
    else
      (None,
       Windows.set_error
         ("Transcription failed with code: " ++ to_string_int result) st').
Proof.
  intros Hctx Hn Hfull. unfold Windows.whisper_wrapper_transcribe.
  apply Z.eqb_neq in Hctx. rewrite Hctx.
  assert (Hn' : (n_samples <=? 0) = false) by (apply Z.leb_gt; lia).
  rewrite Hn', Hfull. cbv zeta.
  destruct (result =? 0); cbn [negb]; [|reflexivity].
  cbn [Windows.engine Windows.entered]. now rewrite windows_json.
Qed.

Lemma android_transcribe_run (st : Android.state E) (ctx : Z)
    (samples : list float) (lang : string) (progressCallback : Z)
    (result : Z) (e' : E) :
  let audioLen := Z.of_nat (List.length samples) in
  let logged :=
    Android.LOGI ("Transcribing " ++ to_string_int audioLen ++ " samples") st in
  ctx <> 0 ->
  whisper_full W (Android.engine st) ctx (aparams lang progressCallback)
    samples audioLen
  = (result, e') ->
  (result = 0 ->
   forall i, 0 <= i < whisper_full_n_segments W e' ctx ->
             whisper_full_get_segment_text W e' ctx i <> None) ->
  atranscribe st ctx (Some samples) (Some lang) progressCallback
  = let st' :=
      Android.entered (called_full ctx (aparams lang progressCallback) audioLen)
        e' logged in
    if result =? 0 then
      Some (Some (json_array (map encode_segment (engine_segments W e' ctx))),
            Android.LOGI
              ("Transcription complete: "
               ++ to_string_int (whisper_full_n_segments W e' ctx)
               ++ " segments") st')
    else
      Some (Some EmptyString,
            Android.LOGE
              ("Transcription failed with code: " ++ to_string_int result) st').
Proof.
  intros audioLen logged Hctx Hfull Htext.
  unfold Android.Java_com_securevox_app_whisper_WhisperLib_transcribeAudio.
  apply Z.eqb_neq in Hctx. rewrite Hctx.
  fold audioLen. fold logged.
  change (Android.engine logged) with (Android.engine st).
  rewrite Hfull. cbv zeta.
  destruct (result =? 0) eqn:Hres; cbn [negb]; [|reflexivity].
  apply Z.eqb_eq in Hres.
  rewrite android_loop.
  - now rewrite windows_json.
  - intros j Hj. apply Htext; [exact Hres|].
    destruct (whisper_full_n_segments W e' ctx); simpl in *; lia.
Qed.
End Transcribe.

(** ** The claims about the transcribe operation *)

Section Claims.
Context {E float : Type}.
Variable W : whisper E float.
Variable hardware_concurrency : Z.
Variable GetMethodID_onProgress : Z -> Z.

Local Abbreviation wparams := (Windows.transcribe_params W hardware_concurrency).
Local Abbreviation wtranscribe :=
  (Windows.whisper_wrapper_transcribe W hardware_concurrency).
Local Abbreviation aparams :=
  (Android.transcribe_params W hardware_concurrency GetMethodID_onProgress).
Local Abbreviation atranscribe :=
  (Android.Java_com_securevox_app_whisper_WhisperLib_transcribeAudio W
     hardware_concurrency GetMethodID_onProgress).

(** C1, as amended. With a null context handle, whatever the audio buffer,
    the sample count, the language and the callback are: the Windows wrapper
    returns null, its last error reads "Context is null", and the engine is
    neither entered nor changed; the Android binding returns the empty
    string, not null, writes "Context is null" to the error log, has no
    last-error state to set, and does not enter the engine either. *)
Theorem transcribe_null_context
    (stW : Windows.state E) (audio_data : option (list float)) (n_samples : Z)
    (language : option string) (progress_callback user_data : Z)
    (stA : Android.state E) (audioData : option (list float))
    (jlanguage : option string) (progressCallback : Z) :
  let out := wtranscribe stW 0 audio_data n_samples language
               progress_callback user_data in
  fst out = None
  /\ Windows.whisper_wrapper_get_last_error (snd out) = Some "Context is null"
  /\ Windows.engine (snd out) = Windows.engine stW
  /\ Windows.calls (snd out) = Windows.calls stW
  /\ atranscribe stA 0 audioData jlanguage progressCallback
     = Some (Some EmptyString,
             {| Android.logcat :=
                  (Android.logcat stA
                   ++ [(Android.ANDROID_LOG_ERROR, "Context is null")])%list;
                Android.engine := Android.engine stA;
                Android.calls := Android.calls stA |}).
Proof. repeat split. Qed.

(** C2, as amended. On the Windows wrapper, with a non-null context and an
    audio buffer that is null or a sample count that is zero or negative,
    the call returns null, the last error reads "Invalid audio data", and
    the engine is neither entered nor changed. *)
Theorem windows_transcribe_invalid_audio
    (st : Windows.state E) (ctx : Z) (audio_data : option (list float))
    (n_samples : Z) (language : option string)
    (progress_callback user_data : Z) :
  ctx <> 0 ->
  audio_data = None \/ n_samples <= 0 ->
  let out := wtranscribe st ctx audio_data n_samples language
               progress_callback user_data in
  fst out = None
  /\ Windows.whisper_wrapper_get_last_error (snd out) = Some "Invalid audio data"
  /\ Windows.engine (snd out) = Windows.engine st
  /\ Windows.calls (snd out) = Windows.calls st.
Proof.
  intros Hctx Hbad out. subst out. unfold Windows.whisper_wrapper_transcribe.
  apply Z.eqb_neq in Hctx. rewrite Hctx.
  destruct Hbad as [-> | Hn].
  - repeat split.
  - apply Z.leb_le in Hn. rewrite Hn.
    destruct audio_data; repeat split.
Qed.

(** C5, as amended. When the engine ends a run with a non-zero result code:
    the Windows wrapper returns null and its last error reads
    "Transcription failed with code: " followed by the decimal code; the
    Android binding returns the empty string, not null, and the last line of
    its log is that same message at error priority. Neither result holds
    any segment data. *)
Theorem transcribe_engine_failure
    (stW : Windows.state E) (stA : Android.state E) (ctx : Z)
    (samples : list float) (n_samples : Z) (language : option string)
    (lang : string) (progress_callback user_data : Z)
    (result : Z) (eW eA : E) :
  ctx <> 0 ->
  result <> 0 ->
  (0 < n_samples ->
   whisper_full W (Windows.engine stW) ctx
     (wparams language progress_callback user_data) samples n_samples
   = (result, eW) ->
   let out := wtranscribe stW ctx (Some samples) n_samples language
                progress_callback user_data in
   fst out = None
   /\ Windows.whisper_wrapper_get_last_error (snd out)
      = Some ("Transcription failed with code: " ++ to_string_int result))
  /\ (whisper_full W (Android.engine stA) ctx (aparams lang progress_callback)
        samples (Z.of_nat (List.length samples))
      = (result, eA) ->
      exists st',
        atranscribe stA ctx (Some samples) (Some lang) progress_callback
        = Some (Some EmptyString, st')
        /\ last (Android.logcat st') (Android.ANDROID_LOG_INFO, EmptyString)
           = (Android.ANDROID_LOG_ERROR,
              "Transcription failed with code: " ++ to_string_int result)).
Proof.
  intros Hctx Hres. apply Z.eqb_neq in Hres. split.
  - intros Hn Hfull out. subst out.
    rewrite (windows_transcribe_run W hardware_concurrency stW ctx samples
               n_samples language progress_callback user_data result eW)
      by assumption.
    cbv zeta. rewrite Hres. split; reflexivity.
  - intros Hfull.
    rewrite (android_transcribe_run W hardware_concurrency
               GetMethodID_onProgress stA ctx samples lang progress_callback
               result eA); try assumption.
    + cbv zeta. rewrite Hres. eexists. split; [reflexivity|].
      cbn [Android.LOGE Android.logcat]. apply last_last.
    + intros H0. apply Z.eqb_neq in Hres. contradiction.
Qed.

(** C8, as amended. On the Windows wrapper, a run enters the engine with
    the language "en" when the language argument is null, and with the
    language given otherwise. On the Android binding a run with a language
    given enters the engine with that language unchanged. *)
Theorem transcribe_language
    (stW : Windows.state E) (stA : Android.state E) (ctx : Z)
    (samples : list float) (n_samples : Z) (language_arg : option string)
    (lang : string) (progress_callback user_data : Z) (result : Z) (eA : E) :
  ctx <> 0 ->
  (0 < n_samples ->
   exists params,
     Windows.calls
       (snd (wtranscribe stW ctx (Some samples) n_samples language_arg
               progress_callback user_data))
     = (Windows.calls stW ++ [called_full ctx params n_samples])%list
     /\ language params
        = match language_arg with Some l => l | None => "en" end)
  /\ (whisper_full W (Android.engine stA) ctx (aparams lang progress_callback)
        samples (Z.of_nat (List.length samples))
      = (result, eA) ->
      (result = 0 ->
       forall i, 0 <= i < whisper_full_n_segments W eA ctx ->
                 whisper_full_get_segment_text W eA ctx i <> None) ->
      exists params out st',
        atranscribe stA ctx (Some samples) (Some lang) progress_callback
        = Some (out, st')
        /\ Android.calls st'
           = (Android.calls stA
              ++ [called_full ctx params (Z.of_nat (List.length samples))])%list
        /\ language params = lang).
Proof.
  intros Hctx. split.
  - intros Hn.
    exists (wparams language_arg progress_callback user_data).
    destruct (whisper_full W (Windows.engine stW) ctx
                (wparams language_arg progress_callback user_data) samples n_samples)
      as [resultW eW] eqn:Hfull.
    rewrite (windows_transcribe_run W hardware_concurrency stW ctx samples
               n_samples language_arg progress_callback user_data resultW eW)
      by assumption.
    cbv zeta. split; [|reflexivity].
    destruct (resultW =? 0); reflexivity.
  - intros Hfull Htext.
    exists (aparams lang progress_callback).
    rewrite (android_transcribe_run W hardware_concurrency
               GetMethodID_onProgress stA ctx samples lang progress_callback
               result eA); try assumption.
    cbv zeta. destruct (result =? 0); do 2 eexists;
      (split; [reflexivity | split; reflexivity]).
Qed.
Lemma engine_segments_nth (e : E) (ctx : Z) (i : nat) :
  (i < Z.to_nat (whisper_full_n_segments W e ctx))%nat ->
  nth_error (engine_segments W e ctx) i = Some (segment_at W e ctx (Z.of_nat i)).
Proof.
  unfold engine_segments.
  generalize (Z.to_nat (whisper_full_n_segments W e ctx)). intros k.
  assert (Hgen : forall k j i, (i < k)%nat ->
            nth_error (map (segment_at W e ctx) (indices j k)) i
            = Some (segment_at W e ctx (j + Z.of_nat i))).
  { clear. induction k as [|k IH]; intros j i Hi; [lia|].
    destruct i as [|i]; simpl.
    - now rewrite Z.add_0_r.
    - rewrite IH by lia. do 2 f_equal. lia. }
  intros Hi. now rewrite Hgen.
Qed.

(** C3. A transcribe call that succeeds, on either binding, returns the JSON
    array of the engine's segments: an opening bracket, one object per
    segment in the engine's order, a closing bracket; the first object
    follows the bracket directly, every later object follows exactly one
    comma, and with no segment the result is the two characters of an empty
    array. A call succeeds when the context is not null, the engine ends the
    run with code 0 and, for Windows, the buffer is valid, for Android, the
    buffer and the language are given and no segment text is null. *)
Theorem transcribe_success_json
    (stW : Windows.state E) (stA : Android.state E) (ctx : Z)
    (samples : list float) (n_samples : Z) (language_arg : option string)
    (lang : string) (progress_callback user_data : Z) (eW eA : E) :
  ctx <> 0 ->
  (0 < n_samples ->
   whisper_full W (Windows.engine stW) ctx
     (wparams language_arg progress_callback user_data) samples n_samples
   = (0, eW) ->
   fst (wtranscribe stW ctx (Some samples) n_samples language_arg
          progress_callback user_data)
   = Some (json_array (map encode_segment (engine_segments W eW ctx))))
  /\ (whisper_full W (Android.engine stA) ctx (aparams lang progress_callback)
        samples (Z.of_nat (List.length samples))
      = (0, eA) ->
      (forall i, 0 <= i < whisper_full_n_segments W eA ctx ->
                 whisper_full_get_segment_text W eA ctx i <> None) ->
      option_map fst
        (atranscribe stA ctx (Some samples) (Some lang) progress_callback)
      = Some (Some (json_array (map encode_segment (engine_segments W eA ctx)))))
  /\ (forall e,
        List.length (map encode_segment (engine_segments W e ctx))
        = Z.to_nat (whisper_full_n_segments W e ctx))
  /\ (forall e i,
        (i < Z.to_nat (whisper_full_n_segments W e ctx))%nat ->
        nth_error (map encode_segment (engine_segments W e ctx)) i
        = Some (encode_segment (segment_at W e ctx (Z.of_nat i))))
  /\ json_array [] = "[]"
  /\ (forall o objects,
        json_array (o :: objects) = "[" ++ o ++ comma_prefixed objects ++ "]").
Proof.
  intros Hctx. repeat split.
  - intros Hn Hfull.
    now rewrite (windows_transcribe_run W hardware_concurrency stW ctx samples
                   n_samples language_arg progress_callback user_data 0 eW).
  - intros Hfull Htext.
    rewrite (android_transcribe_run W hardware_concurrency
               GetMethodID_onProgress stA ctx samples lang progress_callback
               0 eA); auto.
  - intros e. apply engine_segments_length.
  - intros e i Hi. rewrite nth_error_map, engine_segments_nth by exact Hi.
    reflexivity.
  - intros o objects. unfold json_array.
    now rewrite concat_comma_cons, append_assoc.
Qed.

(** C7, as amended. For a segment whose start time [t0] and end time [t1],
    in centiseconds, are at most 2^53 in absolute value after the
    multiplication by ten, the [start] field of its object is the numeral of
    [t0 * 10] and the [end] field the numeral of [t1 * 10], each with six
    zero decimals, on both bindings. *)
Theorem segment_times_milliseconds (e : E) (ctx i : Z) (json : string) :
  let text := whisper_full_get_segment_text W e ctx i in
  let t0 := whisper_full_get_segment_t0 W e ctx i in
  let t1 := whisper_full_get_segment_t1 W e ctx i in
  Z.abs t0 * 10 <= 2 ^ 53 ->
  Z.abs t1 * 10 <= 2 ^ 53 ->
  let object :=
    json_object (flat_map_string escape_char (text_bytes text))
      (milliseconds (t0 * 10)) (milliseconds (t1 * 10)) in
  Windows.append_segment W e ctx i json
  = json ++ (if 0 <? i then "," else EmptyString) ++ object
  /\ (text <> None ->
      Android.append_segment W e ctx i json
      = Some (json ++ (if 0 <? i then "," else EmptyString) ++ object)).
Proof.
  intros text t0 t1 H0 H1 object.
  assert (HW : Windows.append_segment W e ctx i json
               = json ++ (if 0 <? i then "," else EmptyString) ++ object).
  { rewrite windows_append_segment. unfold encode_segment, segment_at.
    fold text. fold t0. fold t1.
    now rewrite (times_ten_exact t0), (times_ten_exact t1). }
  split; [exact HW|].
  intros Htext. now rewrite android_append_segment, HW.
Qed.

End Claims.

(** ** Sequences of calls on the Windows wrapper *)

Lemma error_message_nonempty {E float : Type} (W : whisper E float)
    (hardware_concurrency : Z) (e : E) (o : Windows.op float) (msg : string) :
  error_message W hardware_concurrency e o msg -> msg <> EmptyString.
Proof. intros H. destruct H; discriminate. Qed.

(** A call has one message at most. *)
Lemma error_message_unique {E float : Type} (W : whisper E float)
    (hardware_concurrency : Z) (e : E) (o : Windows.op float)
    (msg1 msg2 : string) :
  error_message W hardware_concurrency e o msg1 ->
  error_message W hardware_concurrency e o msg2 ->
  msg1 = msg2.
Proof.
  intros H1 H2.
  inversion H1; subst; inversion H2; subst; try reflexivity;
    try congruence;
    repeat match goal with
           | H : _ \/ _ |- _ => destruct H
           end;
    try congruence; try lia.
Qed.

Section Sequences.
Context {E float : Type}.
Variable W : whisper E float.
Variable hardware_concurrency : Z.

Local Abbreviation step := (Windows.step W hardware_concurrency).
Local Abbreviation run := (Windows.run W hardware_concurrency).
Local Abbreviation fails := (Windows.fails W hardware_concurrency).
Local Abbreviation none_fails := (Windows.none_fails W hardware_concurrency).

(** What one call does to the last error. *)
Lemma step_last_error (st : Windows.state E) (o : Windows.op float) :
  if fails st o
  then error_message W hardware_concurrency (Windows.engine st) o
         (Windows.g_last_error (snd (step st o)))
  else Windows.g_last_error (snd (step st o)) = Windows.g_last_error st.
Proof.
  unfold Windows.fails.
  destruct o as [[path|] | ctx | ctx audio_data n_samples language cb ud
                 | str | | ctx | ]; cbn [Windows.step].
  - unfold Windows.whisper_wrapper_init.
    destruct (whisper_init_from_file_with_params W (Windows.engine st) path _)
      as [ctx e'] eqn:Hload.
    destruct (ctx =? 0) eqn:Hctx; cbn [fst snd Windows.reports_failure].
    + apply msg_load. rewrite Hload. now apply Z.eqb_eq in Hctx.
    + rewrite Hctx. reflexivity.
  - apply msg_path_null.
  - cbn. unfold Windows.whisper_wrapper_free.
    destruct (negb (ctx =? 0)); reflexivity.
  - unfold Windows.whisper_wrapper_transcribe.
    destruct (ctx =? 0) eqn:Hctx.
    { apply Z.eqb_eq in Hctx. subst ctx. apply msg_context_null. }
    apply Z.eqb_neq in Hctx.
    destruct audio_data as [samples|].
    2:{ cbn. apply msg_invalid_audio; auto. }
    destruct (n_samples <=? 0) eqn:Hn.
    { cbn. apply msg_invalid_audio; [assumption|].
      right. now apply Z.leb_le. }
    apply Z.leb_gt in Hn.
    destruct (whisper_full W (Windows.engine st) ctx _ samples n_samples)
      as [result e'] eqn:Hfull.
    destruct (result =? 0) eqn:Hres; cbn.
    + reflexivity.
    + apply msg_engine_code; try assumption.
      * rewrite Hfull. reflexivity.
      * now apply Z.eqb_neq.
  - reflexivity.
  - reflexivity.
  - cbn. unfold Windows.whisper_wrapper_is_multilingual.
    destruct (ctx =? 0); reflexivity.
  - reflexivity.
Qed.

(** Only a call that fails has a message. *)
Lemma error_message_fails (st : Windows.state E) (o : Windows.op float)
    (msg : string) :
  error_message W hardware_concurrency (Windows.engine st) o msg ->
  fails st o = true.
Proof.
  intros H. unfold Windows.fails.
  destruct H as [ | path Hload | | ctx audio_data n_samples language cb ud Hctx Hbad
                | ctx samples n_samples language cb ud code Hctx Hn Hfull Hcode];
    cbn [Windows.step].
  - reflexivity.
  - unfold Windows.whisper_wrapper_init.
    destruct (whisper_init_from_file_with_params W (Windows.engine st) path _)
      as [ctx e']. cbn [fst] in Hload. subst ctx. reflexivity.
  - reflexivity.
  - unfold Windows.whisper_wrapper_transcribe.
    apply Z.eqb_neq in Hctx. rewrite Hctx.
    destruct Hbad as [-> | Hn]; [reflexivity|].
    apply Z.leb_le in Hn. rewrite Hn. destruct audio_data; reflexivity.
  - unfold Windows.whisper_wrapper_transcribe.
    apply Z.eqb_neq in Hctx. rewrite Hctx.
    assert (Hn' : (n_samples <=? 0) = false) by (apply Z.leb_gt; lia).
    rewrite Hn'.
    destruct (whisper_full W (Windows.engine st) ctx _ samples n_samples)
      as [result e']. cbn [fst] in Hfull. subst code.
    apply Z.eqb_neq in Hcode. rewrite Hcode. reflexivity.
Qed.

Lemma run_app (st : Windows.state E) (ops1 ops2 : list (Windows.op float)) :
  run st (ops1 ++ ops2) = run (run st ops1) ops2.
Proof.
  revert st. induction ops1 as [|o ops1 IH]; intros st; simpl;
    [reflexivity | apply IH].
Qed.

Lemma none_fails_keeps (st : Windows.state E) (ops : list (Windows.op float)) :
  none_fails st ops = true ->
  Windows.g_last_error (run st ops) = Windows.g_last_error st.
Proof.
  revert st. induction ops as [|o ops IH]; intros st H; simpl in *;
    [reflexivity|].
  apply andb_prop in H as [Ho Hops].
  rewrite IH by exact Hops.
  pose proof (step_last_error st o) as Hstep.
  destruct (fails st o); [discriminate Ho | exact Hstep].
Qed.

Lemma step_keeps_nonempty (st : Windows.state E) (o : Windows.op float) :
  Windows.g_last_error st <> EmptyString ->
  Windows.g_last_error (snd (step st o)) <> EmptyString.
Proof.
  intros Hst. pose proof (step_last_error st o) as Hstep.
  destruct (fails st o).
  - eapply error_message_nonempty, Hstep.
  - now rewrite Hstep.
Qed.

Lemma run_keeps_nonempty (st : Windows.state E) (ops : list (Windows.op float)) :
  Windows.g_last_error st <> EmptyString ->
  Windows.g_last_error (run st ops) <> EmptyString.
Proof.
  revert st. induction ops as [|o ops IH]; intros st Hst; simpl;
    [exact Hst|].
  apply IH, step_keeps_nonempty, Hst.
Qed.

(** C6, as amended. On the Windows wrapper, across every sequence of calls:
    a call of init or transcribe that returns null has written its own
    message to the last error when it returns, the one message that belongs
    to that call and to what the engine answered it; every other call, that
    is a successful init or transcribe, free, freeString, getSystemInfo,
    getLastError and isMultilingual, leaves the last error as it was, and
    isMultilingual on a null handle returns 0 and records nothing; so
    getLastError returns the message of the most recent init or transcribe
    that returned null, and the value held before the sequence when there
    was none. *)
Theorem last_error_tracks_failures
    (st : Windows.state E) (pre post : list (Windows.op float))
    (o : Windows.op float) :
  (forall s o',
     if fails s o'
     then error_message W hardware_concurrency (Windows.engine s) o'
            (Windows.g_last_error (snd (step s o')))
     else Windows.g_last_error (snd (step s o')) = Windows.g_last_error s)
  /\ (forall s o' msg1 msg2,
        error_message W hardware_concurrency (Windows.engine s) o' msg1 ->
        error_message W hardware_concurrency (Windows.engine s) o' msg2 ->
        msg1 = msg2)
  /\ (forall s o' msg,
        error_message W hardware_concurrency (Windows.engine s) o' msg ->
        fails s o' = true)
  /\ (forall s, Windows.whisper_wrapper_is_multilingual W s 0 = (0, s))
  /\ (none_fails st post = true ->
      Windows.whisper_wrapper_get_last_error (run st post)
      = Some (Windows.g_last_error st))
  /\ (fails (run st pre) o = true ->
      none_fails (snd (step (run st pre) o)) post = true ->
      exists msg,
        error_message W hardware_concurrency (Windows.engine (run st pre)) o msg
        /\ Windows.whisper_wrapper_get_last_error (run st (pre ++ o :: post))
           = Some msg).
Proof.
  split; [exact step_last_error|].
  split; [intros s o' msg1 msg2; apply error_message_unique|].
  split; [exact error_message_fails|].
  split; [reflexivity|].
  split.
  - intros Hpost. unfold Windows.whisper_wrapper_get_last_error.
    now rewrite none_fails_keeps.
  - intros Ho Hpost.
    exists (Windows.g_last_error (snd (step (run st pre) o))). split.
    + pose proof (step_last_error (run st pre) o) as Hstep.
      now rewrite Ho in Hstep.
    + unfold Windows.whisper_wrapper_get_last_error.
      rewrite run_app. cbn [Windows.run].
      now rewrite none_fails_keeps.
Qed.

(** C10. The getLastError accessor of the Windows wrapper never returns
    null: in the initial state, and as long as no call has failed, it
    returns the empty string; once a call has failed it returns a recorded
    message, which is never empty, whatever calls follow. *)
Theorem get_last_error_never_null
    (e : E) (st : Windows.state E) (pre post : list (Windows.op float))
    (o : Windows.op float) :
  Windows.whisper_wrapper_get_last_error st <> None
  /\ Windows.whisper_wrapper_get_last_error (Windows.initial e) = Some EmptyString
  /\ (none_fails (Windows.initial e) post = true ->
      Windows.whisper_wrapper_get_last_error (run (Windows.initial e) post)
      = Some EmptyString)
  /\ (fails (run st pre) o = true ->
      exists msg,
        msg <> EmptyString
        /\ Windows.whisper_wrapper_get_last_error (run st (pre ++ o :: post))
           = Some msg).
Proof.
  split; [discriminate|].
  split; [reflexivity|].
  split.
  - intros Hpost. unfold Windows.whisper_wrapper_get_last_error.
    now rewrite none_fails_keeps.
  - intros Ho.
    exists (Windows.g_last_error (run st (pre ++ o :: post))).
    split; [|reflexivity].
    rewrite run_app. cbn [Windows.run].
    apply run_keeps_nonempty.
    pose proof (step_last_error (run st pre) o) as Hstep.
    rewrite Ho in Hstep. eapply error_message_nonempty, Hstep.
Qed.
End Sequences.

(** ** The claims on concrete runs

    The runs below use the scripted engine on a machine with eight hardware
    threads; the context handle is 4096 and the buffer holds two samples of
    silence. *)

(** The first round of the loop on a text with two double quotes. *)
Lemma escape_he_said :
  Windows.append_segment (scripted 0 two_segments) two_segments 4096 0 "["
  = "[" ++ json_object ("He said \" ++ q ++ "hi\" ++ q) "0.000000" "1500.000000".
Proof. reflexivity. Qed.

(** On a null context the Android binding returns a string, the empty one,
    and not null. *)
Lemma transcribe_null_context_android_not_null :
  option_map fst
    (Android.Java_com_securevox_app_whisper_WhisperLib_transcribeAudio
      (scripted 0 two_segments) 8 (fun _ => 0)
       (Android.initial two_segments) 0 (Some [0; 0]) (Some "en") 0)
  = Some (Some EmptyString)
  /\ Some (Some EmptyString) <> Some (@None string).
Proof. split; [reflexivity | discriminate]. Qed.

Lemma windows_transcribe_invalid_audio_witness :
  let out :=
    Windows.whisper_wrapper_transcribe (scripted 0 two_segments) 8
      (Windows.initial []) 4096 (Some []) 0 (Some "en") 0 0 in
  4096 <> 0
  /\ (Some (@nil Z) = None \/ 0 <= 0)
  /\ fst out = None
  /\ Windows.whisper_wrapper_get_last_error (snd out) = Some "Invalid audio data"
  /\ Windows.engine (snd out) = []
  /\ Windows.calls (snd out) = [].
Proof.
  split; [discriminate|].
  split; [right; lia|].
  apply (windows_transcribe_invalid_audio (scripted 0 two_segments) 8
           (Windows.initial []) 4096 (Some []) 0 (Some "en") 0 0).
  - discriminate.
  - right. lia.
Defined.

(** The Android binding passes an empty buffer on: the engine is entered
    with a sample count of 0 and its answer is returned. *)
Lemma android_empty_buffer_enters_engine :
  option_map (fun r => (fst r, Android.calls (snd r)))
    (Android.Java_com_securevox_app_whisper_WhisperLib_transcribeAudio
      (scripted 0 []) 8 (fun _ => 0)
       (Android.initial []) 4096 (Some []) (Some "en") 0)
  = Some (Some "[]",
          [called_full 4096
             (Android.transcribe_params (scripted 0 []) 8 (fun _ => 0) "en" 0)
             0]).
Proof. reflexivity. Qed.

Lemma transcribe_success_json_witness :
  let expected :=
    "[" ++ json_object ("He said \" ++ q ++ "hi\" ++ q) "0.000000" "1500.000000"
        ++ ","
        ++ json_object "Bye" "1500.000000" "3200.000000" ++ "]" in
  fst (Windows.whisper_wrapper_transcribe (scripted 0 two_segments) 8
         (Windows.initial []) 4096 (Some [0; 0]) 2 None 0 0)
  = Some expected
  /\ option_map fst
       (Android.Java_com_securevox_app_whisper_WhisperLib_transcribeAudio
      (scripted 0 two_segments) 8 (fun _ => 0)
          (Android.initial []) 4096 (Some [0; 0]) (Some "en") 0)
     = Some (Some expected).
Proof.
  destruct (transcribe_success_json (scripted 0 two_segments) 8 (fun _ => 0)
              (Windows.initial []) (Android.initial []) 4096 [0; 0] 2 None
              "en" 0 0 two_segments two_segments)
    as (HW & HA & _); [discriminate|].
  split.
  - apply HW; [lia | reflexivity].
  - apply HA; [reflexivity|].
    intros i Hi. change (whisper_full_n_segments _ _ _) with 2 in Hi.
    assert (Hcases : i = 0 \/ i = 1) by lia.
    destruct Hcases as [-> | ->]; discriminate.
Defined.

Lemma transcribe_engine_failure_witness :
  let out :=
    Windows.whisper_wrapper_transcribe (scripted (-7) two_segments) 8
      (Windows.initial []) 4096 (Some [0; 0]) 2 None 0 0 in
  fst out = None
  /\ Windows.whisper_wrapper_get_last_error (snd out)
     = Some "Transcription failed with code: -7"
  /\ exists st',
       Android.Java_com_securevox_app_whisper_WhisperLib_transcribeAudio (scripted (-7) two_segments) 8 (fun _ => 0)
         (Android.initial []) 4096 (Some [0; 0]) (Some "en") 0
       = Some (Some EmptyString, st')
       /\ last (Android.logcat st') (Android.ANDROID_LOG_INFO, EmptyString)
          = (Android.ANDROID_LOG_ERROR, "Transcription failed with code: -7").
Proof.
  destruct (transcribe_engine_failure (scripted (-7) two_segments) 8
              (fun _ => 0) (Windows.initial []) (Android.initial []) 4096
              [0; 0] 2 None "en" 0 0 (-7) two_segments two_segments)
    as (HW & HA); [discriminate | discriminate |].
  split; [apply HW; [lia | reflexivity]|].
  split; [apply HW; [lia | reflexivity]|].
  apply HA. reflexivity.
Defined.

(** On an engine failure the Android binding returns a string, the empty
    one, and not null. *)
Lemma transcribe_engine_failure_android_not_null :
  option_map fst
    (Android.Java_com_securevox_app_whisper_WhisperLib_transcribeAudio
      (scripted 3 two_segments) 8 (fun _ => 0)
       (Android.initial []) 4096 (Some [0; 0]) (Some "en") 0)
  = Some (Some EmptyString)
  /\ Some (Some EmptyString) <> Some (@None string).
Proof. split; [reflexivity | discriminate]. Qed.

Lemma segment_times_milliseconds_witness :
  Z.abs 150 * 10 <= 2 ^ 53
  /\ Z.abs 320 * 10 <= 2 ^ 53
  /\ Windows.append_segment (scripted 0 two_segments) two_segments 4096 1 "[{}"
     = "[{}," ++ json_object "Bye" (milliseconds 1500) (milliseconds 3200)
  /\ Android.append_segment (scripted 0 two_segments) two_segments 4096 1 "[{}"
     = Some ("[{}," ++ json_object "Bye" (milliseconds 1500) (milliseconds 3200)).
Proof.
  split; [vm_compute; discriminate|].
  split; [vm_compute; discriminate|].
  destruct (segment_times_milliseconds (scripted 0 two_segments) two_segments
              4096 1 "[{}")
    as (HW & HA); [vm_compute; discriminate | vm_compute; discriminate |].
  split; [exact HW | apply HA; discriminate].
Defined.

(** The start time 2^53 + 1 is not a binary64 value: it is rounded to 2^53
    before the multiplication. *)
Lemma segment_times_rounded :
  let t0 := 9007199254740993 in
  let segs : list segment := [(Some "a", t0, 0)] in
  - 2 ^ 63 <= t0 < 2 ^ 63
  /\ Windows.append_segment (scripted 0 segs) segs 4096 0 "["
     = "[" ++ json_object "a" "90071992547409920.000000" "0.000000"
  /\ Android.append_segment (scripted 0 segs) segs 4096 0 "["
     = Some ("[" ++ json_object "a" "90071992547409920.000000" "0.000000")
  /\ milliseconds (t0 * 10) = "90071992547409930.000000"
  /\ milliseconds (t0 * 10) <> "90071992547409920.000000".
Proof.
  cbv zeta. split; [split; vm_compute; congruence|].
  split; [vm_compute; reflexivity|].
  split; [vm_compute; reflexivity|].
  split; [vm_compute; reflexivity|].
  vm_compute. discriminate.
Qed.

Lemma transcribe_language_witness :
  (exists params,
     Windows.calls
       (snd (Windows.whisper_wrapper_transcribe (scripted 0 two_segments) 8
               (Windows.initial []) 4096 (Some [0; 0]) 2 None 0 0))
     = [called_full 4096 params 2]
     /\ language params = "en")
  /\ (exists params out st',
        Android.Java_com_securevox_app_whisper_WhisperLib_transcribeAudio
      (scripted 0 two_segments) 8 (fun _ => 0)
          (Android.initial []) 4096 (Some [0; 0]) (Some "auto") 0
        = Some (out, st')
        /\ Android.calls st' = [called_full 4096 params 2]
        /\ language params = "auto").
Proof.
  destruct (transcribe_language (scripted 0 two_segments) 8 (fun _ => 0)
              (Windows.initial []) (Android.initial []) 4096 [0; 0] 2 None
              "auto" 0 0 0 two_segments)
    as (HW & HA); [discriminate|].
  split.
  - apply HW. lia.
  - apply HA; [reflexivity|].
    intros _ i Hi. change (whisper_full_n_segments _ _ _) with 2 in Hi.
    assert (Hcases : i = 0 \/ i = 1) by lia.
    destruct Hcases as [-> | ->]; discriminate.
Defined.

(** Without a language the Android binding has no default to fall back on:
    it hands the null reference to [GetStringUTFChars]. *)
Lemma android_null_language_no_default :
  Android.Java_com_securevox_app_whisper_WhisperLib_transcribeAudio
      (scripted 0 two_segments) 8 (fun _ => 0)
    (Android.initial []) 4096 (Some [0; 0]) None 0
  = None
  /\ fst (Windows.whisper_wrapper_transcribe (scripted 0 two_segments) 8
            (Windows.initial []) 4096 (Some [0; 0]) 2 None 0 0)
     <> None.
Proof. split; [reflexivity | discriminate]. Qed.



Lemma last_error_tracks_failures_witness :
  let W := scripted 0 two_segments in
  let st := Windows.initial [] in
  Windows.none_fails W 8 st load_model = true
  /\ Windows.whisper_wrapper_get_last_error (Windows.run W 8 st load_model)
     = Some EmptyString
  /\ Windows.fails W 8 (Windows.run W 8 st load_model) null_transcribe = true
  /\ Windows.none_fails W 8
       (snd (Windows.step W 8 (Windows.run W 8 st load_model) null_transcribe))
       queries
     = true
  /\ Windows.whisper_wrapper_get_last_error
       (Windows.run W 8 st (load_model ++ null_transcribe :: queries))
     = Some "Context is null"
  /\ exists msg,
       error_message W 8 (Windows.engine (Windows.run W 8 st load_model))
         null_transcribe msg
       /\ Windows.whisper_wrapper_get_last_error
            (Windows.run W 8 st (load_model ++ null_transcribe :: queries))
          = Some msg.
Proof.
  intros W st.
  destruct (last_error_tracks_failures W 8 st load_model queries
              null_transcribe) as (_ & _ & _ & _ & _ & Hlast).
  destruct (last_error_tracks_failures W 8 st [] load_model
              null_transcribe) as (_ & _ & _ & _ & Hnone & _).
  split; [reflexivity|].
  split; [apply Hnone; reflexivity|].
  split; [reflexivity|].
  split; [reflexivity|].
  split; [reflexivity|].
  apply Hlast; reflexivity.
Defined.

(** isMultilingual on a null handle returns its failure value, 0, and the
    last error is still the empty string of the initial state. *)
Lemma is_multilingual_null_records_nothing :
  let W := scripted 0 two_segments in
  let out := Windows.step W 8 (Windows.initial []) (Windows.op_is_multilingual (float:=Z) 0) in
  fst out = Windows.ret_int 0
  /\ Windows.whisper_wrapper_get_last_error (snd out) = Some EmptyString
  /\ forall msg,
       error_message W 8 [] (Windows.op_is_multilingual (float:=Z) 0) msg
       -> False.
Proof.
  split; [reflexivity|].
  split; [reflexivity|].
  intros msg H. inversion H.
Qed.

(** The message of a run the engine ends with code -7 is the one with -7,
    and the message of a call with an empty buffer is not an engine code. *)
Lemma error_message_pinned :
  let W := scripted (-7) two_segments in
  (forall msg,
     error_message W 8 [] (Windows.op_transcribe 4096 (Some [0; 0]) 2 None 0 0) msg ->
     msg = "Transcription failed with code: -7")
  /\ (forall msg,
        error_message W 8 [] (Windows.op_transcribe 4096 (Some []) 0 None 0 0) msg ->
        msg = "Invalid audio data").
Proof.
  intros W. split; intros msg H.
  - eapply error_message_unique; [exact H|].
    apply (msg_engine_code W 8 [] 4096 [0; 0] 2 None 0 0 (-7));
      [discriminate | lia | reflexivity | discriminate].
  - eapply error_message_unique; [exact H|].
    apply msg_invalid_audio; [discriminate | right; lia].
Qed.

Lemma get_last_error_never_null_witness :
  let W := scripted 0 two_segments in
  let st := Windows.initial [] in
  Windows.none_fails W 8 st load_model = true
  /\ Windows.whisper_wrapper_get_last_error (Windows.run W 8 st load_model)
     = Some EmptyString
  /\ Windows.fails W 8 (Windows.run W 8 st load_model) null_transcribe = true
  /\ exists msg,
       msg <> EmptyString
       /\ Windows.whisper_wrapper_get_last_error
            (Windows.run W 8 st (load_model ++ null_transcribe :: queries))
          = Some msg.
Proof.
  intros W st.
  destruct (get_last_error_never_null W 8 [] st load_model queries
              null_transcribe) as (_ & _ & _ & Hlast).
  destruct (get_last_error_never_null W 8 [] st [] load_model
              null_transcribe) as (_ & _ & Hnone & _).
  split; [reflexivity|].
  split; [apply Hnone; reflexivity|].
  split; [reflexivity|].
  apply Hlast; reflexivity.
Defined.

(** * Part III: the rest of the two files *)

(** ** Loading a model *)

Section Loading.
Context {E float : Type}.
Variable W : whisper E float.

(** The parameters both bindings load a model with: the engine's defaults
    with the GPU switched off. *)
Local Abbreviation cpu_params :=
  {| use_gpu := false;
     gpu_device := gpu_device (whisper_context_default_params W) |}.

(** X1. [whisper_wrapper_init] returns null exactly when the path is null or
    the engine fails to load the file. When it returns null the last error
    is "Model path is null" for a null path, with the engine not entered,
    and "Failed to load model from: " followed by the path otherwise. When
    it returns a handle, that is the engine's handle and the last error is
    left as it was. *)
Theorem windows_init_outcome (st : Windows.state E) (model_path : option string) :
  let out := Windows.whisper_wrapper_init W st model_path in
  let loaded path :=
    whisper_init_from_file_with_params W (Windows.engine st) path cpu_params in
  (fst out = 0 <->
   model_path = None \/ exists path, model_path = Some path /\ fst (loaded path) = 0)
  /\ (model_path = None ->
      Windows.whisper_wrapper_get_last_error (snd out) = Some "Model path is null"
      /\ Windows.engine (snd out) = Windows.engine st
      /\ Windows.calls (snd out) = Windows.calls st)
  /\ (forall path, model_path = Some path ->
      fst out = fst (loaded path)
      /\ Windows.engine (snd out) = snd (loaded path)
      /\ Windows.calls (snd out)
         = (Windows.calls st ++ [called_init path cpu_params])%list
      /\ Windows.whisper_wrapper_get_last_error (snd out)
         = Some (if fst (loaded path) =? 0
                 then "Failed to load model from: " ++ c_str path
                 else Windows.g_last_error st)).
Proof.
  intros out loaded. subst out. unfold Windows.whisper_wrapper_init.
  destruct model_path as [path|].
  - subst loaded. cbv beta.
    destruct (whisper_init_from_file_with_params W (Windows.engine st) path
                cpu_params) as [ctx e'] eqn:Hload.
    destruct (ctx =? 0) eqn:Hctx.
    + apply Z.eqb_eq in Hctx. subst ctx. split; [|split].
      * split; [|reflexivity]. intros _. right. exists path.
        now rewrite Hload.
      * discriminate.
      * intros path' [= <-]. rewrite Hload. repeat split.
    + split; [|split].
      * cbn [fst]. apply Z.eqb_neq in Hctx. split; [contradiction|].
        intros [Hnone | (path' & [= <-] & H0)]; [discriminate|].
        rewrite Hload in H0. exact H0.
      * discriminate.
      * intros path' [= <-]. rewrite Hload. cbn [fst snd]. rewrite Hctx.
        repeat split.
  - split; [|split].
    + split; [now left | reflexivity].
    + intros _. repeat split.
    + discriminate.
Qed.

(** X2. [initContext] with a path given always returns, with the handle the
    engine gives: the same value the Windows wrapper returns from the same
    engine state, 0 exactly when the load fails. It logs the path first and
    then one more line, "Failed to load model" at error priority on a
    failure and "Model loaded successfully" at info priority otherwise; the
    model is loaded with the GPU off. *)
Theorem android_init_outcome
    (st : Android.state E) (stW : Windows.state E) (path : string) :
  let loaded :=
    whisper_init_from_file_with_params W (Android.engine st) path cpu_params in
  exists st',
    Android.Java_com_securevox_app_whisper_WhisperLib_initContext W st (Some path)
    = Some (fst loaded, st')
    /\ Android.engine st' = snd loaded
    /\ Android.calls st'
       = (Android.calls st ++ [called_init path cpu_params])%list
    /\ Android.logcat st'
       = (Android.logcat st
          ++ [(Android.ANDROID_LOG_INFO,
               ("Loading model from: " ++ c_str path)%string);
              if fst loaded =? 0
              then (Android.ANDROID_LOG_ERROR, "Failed to load model")
              else (Android.ANDROID_LOG_INFO, "Model loaded successfully")])%list
    /\ (Windows.engine stW = Android.engine st ->
        fst (Windows.whisper_wrapper_init W stW (Some path)) = fst loaded).
Proof.
  intros loaded. subst loaded.
  unfold Android.Java_com_securevox_app_whisper_WhisperLib_initContext,
    Windows.whisper_wrapper_init.
  cbn [Android.engine Android.LOGI].
  destruct (whisper_init_from_file_with_params W (Android.engine st) path
              cpu_params) as [ctx e'] eqn:Hload.
  destruct (ctx =? 0) eqn:Hctx; eexists; cbn [fst snd]; rewrite ?Hctx.
  - apply Z.eqb_eq in Hctx. subst ctx.
    repeat split; cbn; rewrite <- ?app_assoc; try reflexivity.
    intros ->. now rewrite Hload.
  - repeat split; cbn; rewrite <- ?app_assoc; try reflexivity.
    intros ->. rewrite Hload, Hctx. reflexivity.
Qed.
End Loading.

(** ** The settings of a run and the queries *)

Lemma int_of_unsigned_small (u : Z) : 0 <= u < 2 ^ 31 -> int_of_unsigned u = u.
Proof.
  intros Hu. unfold int_of_unsigned.
  rewrite Z.mod_small by lia.
  destruct (u <? 2 ^ 31) eqn:H; [reflexivity|].
  apply Z.ltb_ge in H. lia.
Qed.

Lemma int_of_unsigned_range (u : Z) : - 2 ^ 31 <= int_of_unsigned u < 2 ^ 31.
Proof.
  unfold int_of_unsigned.
  pose proof (Z.mod_pos_bound u (2 ^ 32) ltac:(lia)) as Hm.
  destruct (u mod 2 ^ 32 <? 2 ^ 31) eqn:H.
  - apply Z.ltb_lt in H. lia.
  - apply Z.ltb_ge in H. lia.
Qed.

Section Settings.
Context {E float : Type}.
Variable W : whisper E float.
Variable hardware_concurrency : Z.
Variable GetMethodID_onProgress : Z -> Z.

Local Abbreviation wparams := (Windows.transcribe_params W hardware_concurrency).
Local Abbreviation aparams :=
  (Android.transcribe_params W hardware_concurrency GetMethodID_onProgress).

Lemma windows_fixed_settings (language : option string) (cb ud : Z) :
  fixed_settings (wparams language cb ud).
Proof. unfold fixed_settings. cbn. repeat split. apply Z.le_min_l. Qed.

Lemma android_fixed_settings (lang : string) (cb : Z) :
  fixed_settings (aparams lang cb).
Proof. unfold fixed_settings. cbn. repeat split. apply Z.le_min_l. Qed.

(** X3. Both bindings ask the engine for the same number of threads, never
    more than 4 whatever the machine reports. With between 1 and 2^31 - 1
    hardware threads reported it is the smaller of 4 and that number; when
    the machine reports 0, for unknown, 0 threads are asked for; a report of
    2^31 or more turns negative in the conversion to [int]. *)
Theorem n_threads_capped (language : option string) (lang : string)
    (progress_callback user_data progressCallback : Z) :
  let n :=
    n_threads
      (Windows.transcribe_params W hardware_concurrency language
         progress_callback user_data) in
  n_threads
    (Android.transcribe_params W hardware_concurrency GetMethodID_onProgress
       lang progressCallback)
  = n
  /\ - 2 ^ 31 <= n <= 4
  /\ (1 <= hardware_concurrency < 2 ^ 31 ->
      n = Z.min 4 hardware_concurrency /\ 1 <= n)
  /\ (hardware_concurrency = 0 -> n = 0)
  /\ (2 ^ 31 <= hardware_concurrency < 2 ^ 32 -> n < 0).
Proof.
  cbn. pose proof (int_of_unsigned_range hardware_concurrency) as Hr.
  repeat split; try lia.
  - rewrite int_of_unsigned_small by lia. reflexivity.
  - rewrite int_of_unsigned_small by lia. lia.
  - intros ->. reflexivity.
  - intros Hbig. unfold int_of_unsigned.
    rewrite Z.mod_small by lia.
    destruct (hardware_concurrency <? 2 ^ 31) eqn:H.
    + apply Z.ltb_lt in H. lia.
    + lia.
Qed.

(** X4. What the progress relays of the two bindings do with a tick. On
    Windows a non-null callback is called once per tick with the tick's
    value and the caller's user data, and with a null callback the engine's
    default callback is left in place. On Android the callback's
    [onProgress] method is called once per tick, and nothing is called when
    the callback is null or has no such method. *)
Theorem progress_forwarding (language : option string) (lang : string)
    (progress_callback user_data progressCallback progress : Z) :
  (progress_callback <> 0 ->
   relay_fire
     (installed_callback (wparams language progress_callback user_data)) progress
   = [call_function progress_callback progress user_data])
  /\ installed_callback (wparams language 0 user_data)
     = installed_callback (whisper_full_default_params W WHISPER_SAMPLING_GREEDY)
  /\ relay_fire (installed_callback (aparams lang progressCallback)) progress
     = if (progressCallback =? 0)
          || (GetMethodID_onProgress progressCallback =? 0)
       then []
       else [call_void_method progressCallback
               (GetMethodID_onProgress progressCallback) progress].
Proof.
  split; [|split].
  - intros Hcb. apply Z.eqb_neq in Hcb.
    unfold installed_callback. cbn. rewrite Hcb. cbn. now rewrite Hcb.
  - reflexivity.
  - unfold installed_callback. cbn.
    destruct (progressCallback =? 0); reflexivity.
Qed.
End Settings.

(** ** What the bindings ask of the engine *)

Section Traces.
Context {E float : Type}.
Variable W : whisper E float.
Variable hardware_concurrency : Z.
Variable GetMethodID_onProgress : Z -> Z.

Local Abbreviation wtranscribe :=
  (Windows.whisper_wrapper_transcribe W hardware_concurrency).
Local Abbreviation atranscribe :=
  (Android.Java_com_securevox_app_whisper_WhisperLib_transcribeAudio W
     hardware_concurrency GetMethodID_onProgress).

(** X5. The two bindings agree on [isMultilingual]: the Windows wrapper
    returns 0 or 1, and 1 exactly when the handle is not null and the engine
    says the model is multilingual; the Android binding always returns, with
    the matching boolean. Neither changes the engine, the last error or the
    log, and neither enters the engine for a null handle. *)
Theorem is_multilingual_agree
    (stW : Windows.state E) (stA : Android.state E) (ctx : Z) :
  let out := Windows.whisper_wrapper_is_multilingual W stW ctx in
  (fst out = 0 \/ fst out = 1)
  /\ (fst out = 1 <->
      ctx <> 0 /\ whisper_is_multilingual W (Windows.engine stW) ctx = true)
  /\ Windows.g_last_error (snd out) = Windows.g_last_error stW
  /\ Windows.engine (snd out) = Windows.engine stW
  /\ (ctx = 0 -> snd out = stW)
  /\ exists b stA',
       Android.Java_com_securevox_app_whisper_WhisperLib_isMultilingual W stA ctx
       = Some (b, stA')
       /\ Android.logcat stA' = Android.logcat stA
       /\ Android.engine stA' = Android.engine stA
       /\ (ctx = 0 -> stA' = stA)
       /\ (Android.engine stA = Windows.engine stW ->
           fst out = if b then 1 else 0).
Proof.
  intros out. subst out.
  unfold Windows.whisper_wrapper_is_multilingual,
    Android.Java_com_securevox_app_whisper_WhisperLib_isMultilingual.
  destruct (ctx =? 0) eqn:Hctx; cbn [fst snd].
  - apply Z.eqb_eq in Hctx. subst ctx.
    split; [now left|].
    split; [split; [discriminate | intros [H _]; now contradiction H]|].
    do 3 (split; [reflexivity|]).
    exists false, stA. repeat split.
  - apply Z.eqb_neq in Hctx.
    destruct (whisper_is_multilingual W (Windows.engine stW) ctx) eqn:Hm.
    + split; [now right|].
      split; [split; [now split | reflexivity]|].
      do 2 (split; [reflexivity|]).
      split; [intros H; now contradiction Hctx|].
      eexists _, _. split; [reflexivity|].
      do 2 (split; [reflexivity|]).
      split; [intros H; now contradiction Hctx|].
      intros ->. now rewrite Hm.
    + split; [now left|].
      split; [split; [discriminate | intros [_ H]; discriminate H]|].
      do 2 (split; [reflexivity|]).
      split; [intros H; now contradiction Hctx|].
      eexists _, _. split; [reflexivity|].
      do 2 (split; [reflexivity|]).
      split; [intros H; now contradiction Hctx|].
      intros ->. now rewrite Hm.
Qed.

(** X6. Of the calls that are recorded, those that load, free, query or run
    a context, a transcribe call on the Windows wrapper makes at most one, a
    run through [whisper_full]: it never frees or reloads the context and
    never runs the engine a second time. What else it asks of the library,
    the default parameters and, after a run that succeeded, the segments the
    run left, are reads and are not recorded. It records no call exactly
    when the context is null, the buffer is null or the sample count is not
    positive, and then the engine is as it was and null is returned;
    otherwise it records the one run, with the caller's sample count. *)
Theorem windows_transcribe_single_run
    (st : Windows.state E) (ctx : Z) (audio_data : option (list float))
    (n_samples : Z) (language : option string)
    (progress_callback user_data : Z) :
  let out := wtranscribe st ctx audio_data n_samples language
               progress_callback user_data in
  let params :=
    Windows.transcribe_params W hardware_concurrency language
      progress_callback user_data in
  (ctx = 0 \/ audio_data = None \/ n_samples <= 0 ->
   Windows.calls (snd out) = Windows.calls st
   /\ Windows.engine (snd out) = Windows.engine st
   /\ fst out = None)
  /\ (forall samples,
        ctx <> 0 -> audio_data = Some samples -> 0 < n_samples ->
        Windows.calls (snd out)
        = (Windows.calls st ++ [called_full ctx params n_samples])%list
        /\ Windows.engine (snd out)
           = snd (whisper_full W (Windows.engine st) ctx params samples n_samples)).
Proof.
  intros out params. subst out params. split.
  - intros Hbad. unfold Windows.whisper_wrapper_transcribe.
    destruct (ctx =? 0) eqn:Hctx; [repeat split|].
    destruct Hbad as [-> | [-> | Hn]]; [discriminate | repeat split |].
    apply Z.leb_le in Hn. rewrite Hn. destruct audio_data; repeat split.
  - intros samples Hctx -> Hn.
    destruct (whisper_full W (Windows.engine st) ctx
                (Windows.transcribe_params W hardware_concurrency language
                   progress_callback user_data) samples n_samples)
      as [result e'] eqn:Hfull.
    rewrite (windows_transcribe_run W hardware_concurrency st ctx samples
               n_samples language progress_callback user_data result e')
      by assumption.
    cbv zeta. destruct (result =? 0); split; reflexivity.
Qed.

Lemma windows_step_calls (st : Windows.state E) (o : Windows.op float) :
  exists new,
    Windows.calls (snd (Windows.step W hardware_concurrency st o))
    = (Windows.calls st ++ new)%list
    /\ Forall windows_call_ok new.
Proof.
  destruct o as [[path|] | ctx | ctx audio_data n_samples language cb ud
                 | str | | ctx | ]; cbn [Windows.step].
  - unfold Windows.whisper_wrapper_init.
    destruct (whisper_init_from_file_with_params W (Windows.engine st) path _)
      as [ctx e'].
    eexists. destruct (ctx =? 0); cbn; (split; [reflexivity|]);
      repeat constructor.
  - exists []. cbn. rewrite app_nil_r. split; constructor.
  - cbn. unfold Windows.whisper_wrapper_free.
    destruct (ctx =? 0) eqn:Hctx; cbn.
    + exists []. rewrite app_nil_r. split; constructor.
    + eexists. split; [reflexivity|]. repeat constructor.
      now apply Z.eqb_neq.
  - unfold Windows.whisper_wrapper_transcribe.
    destruct (ctx =? 0) eqn:Hctx.
    { exists []. cbn. rewrite app_nil_r. split; constructor. }
    destruct audio_data as [samples|].
    2:{ exists []. cbn. rewrite app_nil_r. split; constructor. }
    destruct (n_samples <=? 0) eqn:Hn.
    { exists []. cbn. rewrite app_nil_r. split; constructor. }
    destruct (whisper_full W (Windows.engine st) ctx _ samples n_samples)
      as [result e'].
    eexists. destruct (result =? 0); cbn; (split; [reflexivity|]);
      (constructor; [|constructor]);
      (split; [now apply Z.eqb_neq | split; [now apply Z.leb_gt|]]);
      apply (windows_fixed_settings W hardware_concurrency).
  - exists []. cbn. rewrite app_nil_r. split; constructor.
  - eexists. cbn. split; [reflexivity|]. repeat constructor.
  - cbn. unfold Windows.whisper_wrapper_is_multilingual.
    destruct (ctx =? 0) eqn:Hctx; cbn.
    + exists []. rewrite app_nil_r. split; constructor.
    + eexists. split; [reflexivity|]. repeat constructor.
      now apply Z.eqb_neq.
  - exists []. cbn. rewrite app_nil_r. split; constructor.
Qed.

(** X7. Across every sequence of calls of the Windows wrapper, the record
    of what it asked of the engine only grows, and everything it asked is
    well formed: every model is loaded with the GPU off; the engine is never
    handed a null context to free, to query or to run on; every run has a
    positive sample count, at most 4 threads, no translation, no context
    carried over, several segments allowed and no printing but
    timestamps. *)
Theorem windows_calls_well_formed
    (st : Windows.state E) (ops : list (Windows.op float)) :
  exists new,
    Windows.calls (Windows.run W hardware_concurrency st ops)
    = (Windows.calls st ++ new)%list
    /\ Forall windows_call_ok new.
Proof.
  revert st. induction ops as [|o ops IH]; intros st; cbn [Windows.run].
  - exists []. rewrite app_nil_r. split; constructor.
  - destruct (windows_step_calls st o) as (new1 & H1 & Hok1).
    destruct (IH (snd (Windows.step W hardware_concurrency st o)))
      as (new2 & H2 & Hok2).
    exists (new1 ++ new2)%list. split.
    + now rewrite H2, H1, app_assoc.
    + apply Forall_app. now split.
Qed.
End Traces.

(** ** The Android binding over sequences of calls *)

(** Closes a goal that says a list is the old list with something appended,
    the something still to be found. *)
Ltac extends :=
  cbn; rewrite <- ?app_assoc;
  first [reflexivity | symmetry; apply app_nil_r].

Section AndroidTraces.
Context {E float : Type}.
Variable W : whisper E float.
Variable hardware_concurrency : Z.
Variable GetMethodID_onProgress : Z -> Z.

Local Abbreviation atranscribe :=
  (Android.Java_com_securevox_app_whisper_WhisperLib_transcribeAudio W
     hardware_concurrency GetMethodID_onProgress).
Local Abbreviation astep :=
  (android_step W hardware_concurrency GetMethodID_onProgress).
Local Abbreviation arun :=
  (android_run W hardware_concurrency GetMethodID_onProgress).

(** A loop that comes to its end has read no null text, and has built what
    the Windows loop builds. *)
Lemma android_loop_returns (e : E) (ctx : Z) (k : nat) (i : Z)
    (json result : string) :
  Android.segments_loop W e ctx k i json = Some result ->
  result = Windows.segments_loop W e ctx k i json.
Proof.
  revert i json. induction k as [|k IH]; intros i json; cbn.
  - now intros [= <-].
  - unfold Android.append_segment, Windows.append_segment.
    destruct (whisper_full_get_segment_text W e ctx i) as [p|];
      [|discriminate].
    apply IH.
Qed.

(** The two kinds of string the transcription returns. *)
Lemma android_returned_string
    (st st' : Android.state E) (ctx : Z) (audioData : option (list float))
    (language : option string) (progressCallback : Z) (out : option string) :
  atranscribe st ctx audioData language progressCallback = Some (out, st') ->
  out = Some EmptyString
  \/ out = Some (json_array
                   (map encode_segment (engine_segments W (Android.engine st') ctx))).
Proof.
  unfold Android.Java_com_securevox_app_whisper_WhisperLib_transcribeAudio.
  destruct (ctx =? 0); [intros [= <- <-]; now left|].
  destruct audioData as [samples|]; [|discriminate].
  destruct language as [lang|]; [|discriminate].
  cbn [Android.engine Android.LOGI].
  destruct (whisper_full W (Android.engine st) ctx _ samples _) as [result e'].
  destruct (result =? 0); cbn [negb]; [|intros [= <- <-]; now left].
  cbn [Android.entered Android.engine].
  destruct (Android.segments_loop W e' ctx _ 0 "[") as [json|] eqn:Hloop;
    [|discriminate].
  apply android_loop_returns in Hloop. subst json.
  rewrite windows_json. intros [= <- <-]. now right.
Qed.

Lemma android_call_ok_incl (ops1 ops2 : list (android_op float))
    (c : engine_call) :
  incl ops1 ops2 -> android_call_ok ops1 c -> android_call_ok ops2 c.
Proof.
  intros Hincl. destruct c as [path cp | ctx | ctx params n | | ctx];
    cbn [android_call_ok].
  - intros [H1 H2]. split; [exact H1 | now apply Hincl].
  - intros [H1 H2]. split; [exact H1 | now apply Hincl].
  - intros (H1 & H2 & samples & lang & cb & Hin & Hn & Hlang).
    split; [exact H1|]. split; [exact H2|].
    exists samples, lang, cb. split; [now apply Hincl | now split].
  - apply Hincl.
  - intros [H1 H2]. split; [exact H1 | now apply Hincl].
Qed.

Lemma android_step_grows (st st' : Android.state E) (o : android_op float) :
  astep st o = Some st' ->
  exists lines new,
    Android.logcat st' = (Android.logcat st ++ lines)%list
    /\ Android.calls st' = (Android.calls st ++ new)%list
    /\ Forall (android_call_ok [o]) new.
Proof.
  destruct o as [[path|] | ctx | ctx audioData language cb | | ctx];
    cbn [android_step].
  - unfold Android.Java_com_securevox_app_whisper_WhisperLib_initContext.
    destruct (whisper_init_from_file_with_params W _ path _) as [h e'].
    destruct (h =? 0); cbn; intros [= <-]; eexists _, _;
      (split; [extends | split; [extends|]]);
      (constructor; [|constructor]); (split; [reflexivity | now left]).
  - discriminate.
  - unfold Android.Java_com_securevox_app_whisper_WhisperLib_freeContext.
    destruct (ctx =? 0) eqn:Hctx; cbn; intros [= <-]; eexists _, _;
      (split; [extends | split; [extends|]]); [constructor|].
    constructor; [|constructor].
    split; [now apply Z.eqb_neq | now left].
  - unfold Android.Java_com_securevox_app_whisper_WhisperLib_transcribeAudio.
    destruct (ctx =? 0) eqn:Hctx.
    { cbn. intros [= <-]. eexists _, _.
      split; [extends | split; [extends | constructor]]. }
    destruct audioData as [samples|]; [|discriminate].
    destruct language as [lang|]; [|discriminate].
    cbn [Android.engine Android.LOGI].
    destruct (whisper_full W (Android.engine st) ctx _ samples _)
      as [result e'].
    assert (Hok : android_call_ok
                    [jni_transcribeAudio ctx (Some samples) (Some lang) cb]
                    (called_full ctx
                       (Android.transcribe_params W hardware_concurrency
                          GetMethodID_onProgress lang cb)
                       (Z.of_nat (List.length samples)))).
    { split; [now apply Z.eqb_neq|].
      split; [apply (android_fixed_settings W hardware_concurrency)|].
      exists samples, lang, cb. split; [now left | split; reflexivity]. }
    destruct (result =? 0); cbn [negb].
    + cbn [Android.entered Android.engine].
      destruct (Android.segments_loop W e' ctx _ 0 "[") as [json|];
        [|discriminate].
      cbn. intros [= <-]. eexists _, _.
      split; [extends | split; [extends|]].
      constructor; [exact Hok | constructor].
    + cbn. intros [= <-]. eexists _, _.
      split; [extends | split; [extends|]].
      constructor; [exact Hok | constructor].
  - cbn. intros [= <-]. eexists _, _.
    split; [extends | split; [extends|]].
    constructor; [now left | constructor].
  - unfold Android.Java_com_securevox_app_whisper_WhisperLib_isMultilingual.
    destruct (ctx =? 0) eqn:Hctx; cbn; intros [= <-]; eexists _, _;
      (split; [extends | split; [extends|]]); [constructor|].
    constructor; [|constructor].
    split; [now apply Z.eqb_neq | now left].
Qed.

(** X8. Across every sequence of native calls of the Android binding that
    all return, the log and the record of what was asked of the engine only
    grow, and everything asked of the engine comes from one of the calls,
    with its arguments: every model is loaded from the path given, with the
    GPU off; the engine is never handed a null context; every run has the
    length of the array given as its sample count and the language given,
    at most 4 threads, no translation, no context carried over, several
    segments allowed and no printing but timestamps. *)
Theorem android_calls_well_formed
    (st st' : Android.state E) (ops : list (android_op float)) :
  arun st ops = Some st' ->
  exists lines new,
    Android.logcat st' = (Android.logcat st ++ lines)%list
    /\ Android.calls st' = (Android.calls st ++ new)%list
    /\ Forall (android_call_ok ops) new.
Proof.
  revert st. induction ops as [|o ops IH]; intros st; cbn [android_run].
  - intros [= <-]. exists [], []. rewrite !app_nil_r. repeat split. constructor.
  - destruct (astep st o) as [st1|] eqn:Hstep; [|discriminate].
    intros Hrun.
    destruct (android_step_grows st st1 o Hstep) as (l1 & n1 & Hl1 & Hn1 & Hok1).
    destruct (IH st1 Hrun) as (l2 & n2 & Hl2 & Hn2 & Hok2).
    exists (l1 ++ l2)%list, (n1 ++ n2)%list. split; [|split].
    + now rewrite Hl2, Hl1, app_assoc.
    + now rewrite Hn2, Hn1, app_assoc.
    + apply Forall_app. split.
      * eapply Forall_impl; [|exact Hok1].
        intros c. apply android_call_ok_incl.
        intros x [<- | []]. now left.
      * eapply Forall_impl; [|exact Hok2].
        intros c. apply android_call_ok_incl. apply incl_tl, incl_refl.
Qed.

(** X9. Whenever [transcribeAudio] returns, it returns a string and never a
    null reference, and the string tells success from failure: it is empty
    exactly when the last line logged is an error, that is on a null
    context or a non-zero result code, and otherwise it is the JSON array of
    the engine's segments, which starts with a bracket, and the last line
    logged is the info line with the segment count. *)
Theorem android_result_shape
    (st st' : Android.state E) (ctx : Z) (audioData : option (list float))
    (language : option string) (progressCallback : Z) (out : option string) :
  atranscribe st ctx audioData language progressCallback = Some (out, st') ->
  (out = Some EmptyString
   /\ exists msg,
        last (Android.logcat st') (Android.ANDROID_LOG_INFO, EmptyString)
        = (Android.ANDROID_LOG_ERROR, msg))
  \/ (out = Some (json_array
                    (map encode_segment (engine_segments W (Android.engine st') ctx)))
      /\ out <> Some EmptyString
      /\ last (Android.logcat st') (Android.ANDROID_LOG_INFO, EmptyString)
         = (Android.ANDROID_LOG_INFO,
            "Transcription complete: "
            ++ to_string_int (whisper_full_n_segments W (Android.engine st') ctx)
            ++ " segments")).
Proof.
  unfold Android.Java_com_securevox_app_whisper_WhisperLib_transcribeAudio.
  destruct (ctx =? 0).
  { intros [= <- <-]. left. split; [reflexivity|].
    eexists. cbn. apply last_last. }
  destruct audioData as [samples|]; [|discriminate].
  destruct language as [lang|]; [|discriminate].
  cbn [Android.engine Android.LOGI].
  destruct (whisper_full W (Android.engine st) ctx _ samples _) as [result e'].
  destruct (result =? 0); cbn [negb].
  - cbn [Android.entered Android.engine].
    destruct (Android.segments_loop W e' ctx _ 0 "[") as [json|] eqn:Hloop;
      [|discriminate].
    apply android_loop_returns in Hloop. subst json.
    rewrite windows_json. intros [= <- <-]. right.
    split; [reflexivity|]. split; [discriminate|].
    cbn [Android.LOGI Android.logcat Android.engine]. apply last_last.
  - intros [= <- <-]. left. split; [reflexivity|].
    eexists. cbn [Android.LOGE Android.logcat]. apply last_last.
Qed.
End AndroidTraces.

(** ** The shape of the escaped text and of the result *)

Lemma length_append (s1 s2 : string) :
  String.length (s1 ++ s2) = (String.length s1 + String.length s2)%nat.
Proof. induction s1 as [|c s1 IH]; simpl; [reflexivity | now rewrite IH]. Qed.

Lemma escape_char_length (c : ascii) :
  String.length (escape_char c) = (if is_special c then 2 else 1)%nat.
Proof. destruct c as [[] [] [] [] [] [] [] []]; reflexivity. Qed.

(** X10. Escaping lengthens a text by exactly one byte for each double
    quote, backslash, line feed, carriage return and tab in it: the escaped
    text is never shorter than the text and never more than twice as
    long. *)
Theorem escape_length (p : string) :
  let escaped := escape_loop p EmptyString in
  String.length escaped
  = (String.length (c_str p) + count_special (c_str p))%nat
  /\ (String.length (c_str p) <= String.length escaped
      <= 2 * String.length (c_str p))%nat.
Proof.
  cbv zeta. rewrite escape_loop_acc. cbn [append].
  assert (Hlen : forall s,
            String.length (flat_map_string escape_char s)
            = (String.length s + count_special s)%nat).
  { induction s as [|c s IH]; [reflexivity|].
    cbn [flat_map_string count_special String.length].
    rewrite length_append, escape_char_length, IH.
    destruct (is_special c); lia. }
  assert (Hcount : forall s, (count_special s <= String.length s)%nat).
  { induction s as [|c s IH]; [apply Nat.le_refl|].
    cbn [count_special String.length]. destruct (is_special c); lia. }
  rewrite Hlen. pose proof (Hcount (c_str p)). lia.
Qed.

Lemma has_none_app (bad : ascii -> bool) (s1 s2 : string) :
  has_none bad (s1 ++ s2) = has_none bad s1 && has_none bad s2.
Proof.
  induction s1 as [|c s1 IH]; simpl; [reflexivity|].
  now rewrite IH, andb_assoc.
Qed.

Lemma escape_char_no_break (c : ascii) :
  has_none is_raw_break (escape_char c) = true.
Proof. destruct c as [[] [] [] [] [] [] [] []]; reflexivity. Qed.

Lemma escaped_no_break (s : string) :
  has_none is_raw_break (flat_map_string escape_char s) = true.
Proof.
  induction s as [|c s IH]; [reflexivity|].
  cbn [flat_map_string]. now rewrite has_none_app, escape_char_no_break, IH.
Qed.

Lemma uint_string_no_break (d : Decimal.uint) :
  has_none is_raw_break (NilEmpty.string_of_uint d) = true.
Proof. induction d; simpl; auto. Qed.

Lemma to_string_int_no_break (z : Z) :
  has_none is_raw_break (to_string_int z) = true.
Proof.
  unfold to_string_int, NilZero.string_of_int, NilZero.string_of_uint.
  destruct (Z.to_int z) as [d|d]; destruct d; simpl;
    try reflexivity; apply uint_string_no_break.
Qed.

Lemma encode_segment_no_break (seg : segment) :
  has_none is_raw_break (encode_segment seg) = true.
Proof.
  destruct seg as [[text t0] t1].
  unfold encode_segment, json_object, to_string_double.
  rewrite !has_none_app, escaped_no_break, !to_string_int_no_break.
  reflexivity.
Qed.

Lemma json_array_no_break (segs : list segment) :
  has_none is_raw_break (json_array (map encode_segment segs)) = true.
Proof.
  unfold json_array. destruct segs as [|seg segs]; [reflexivity|].
  cbn [map]. rewrite concat_comma_cons, !has_none_app, encode_segment_no_break.
  assert (Hrest : has_none is_raw_break
                    (comma_prefixed (map encode_segment segs)) = true).
  { induction segs as [|seg' segs IH]; [reflexivity|].
    cbn [map comma_prefixed].
    now rewrite !has_none_app, encode_segment_no_break, IH. }
  now rewrite Hrest.
Qed.

Section OneLine.
Context {E float : Type}.
Variable W : whisper E float.
Variable hardware_concurrency : Z.
Variable GetMethodID_onProgress : Z -> Z.

(** X11. Whatever the segment texts hold, a string returned by transcribe,
    on either binding, is one line: it contains no raw line feed, carriage
    return or tab. *)
Theorem transcribe_result_one_line
    (stW : Windows.state E) (stA stA' : Android.state E) (ctx : Z)
    (audio_data : option (list float)) (n_samples : Z)
    (language : option string) (progress_callback user_data : Z)
    (result : string) :
  (fst (Windows.whisper_wrapper_transcribe W hardware_concurrency stW ctx
          audio_data n_samples language progress_callback user_data)
   = Some result ->
   has_none is_raw_break result = true)
  /\ (Android.Java_com_securevox_app_whisper_WhisperLib_transcribeAudio W
        hardware_concurrency GetMethodID_onProgress stA ctx audio_data
        language progress_callback
      = Some (Some result, stA') ->
      has_none is_raw_break result = true).
Proof.
  split.
  - unfold Windows.whisper_wrapper_transcribe.
    destruct (ctx =? 0); [discriminate|].
    destruct audio_data as [samples|]; [|discriminate].
    destruct (n_samples <=? 0); [discriminate|].
    destruct (whisper_full W (Windows.engine stW) ctx _ samples n_samples)
      as [code e'].
    destruct (code =? 0); cbn [negb fst]; [|discriminate].
    cbv zeta. cbn [fst]. rewrite (windows_json W e' ctx). intros [= <-].
    apply json_array_no_break.
  - intros Hret.
    destruct (android_returned_string W hardware_concurrency
                GetMethodID_onProgress stA stA' ctx audio_data language
                progress_callback (Some result) Hret) as [H | H].
    + injection H as ->. reflexivity.
    + injection H as ->. apply json_array_no_break.
Qed.
End OneLine.

(** ** The rest of the two files on concrete runs *)

Lemma windows_init_outcome_witness :
  let W := scripted 0 two_segments in
  let failed := Windows.whisper_wrapper_init W (Windows.initial []) (Some EmptyString) in
  let absent := Windows.whisper_wrapper_init W (Windows.initial []) None in
  fst failed = 0
  /\ Windows.whisper_wrapper_get_last_error (snd failed)
     = Some "Failed to load model from: "
  /\ fst absent = 0
  /\ Windows.whisper_wrapper_get_last_error (snd absent)
     = Some "Model path is null".
Proof.
  intros W failed absent.
  destruct (windows_init_outcome W (Windows.initial []) (Some EmptyString))
    as (Hzero & _ & Hsome).
  destruct (windows_init_outcome W (Windows.initial []) None)
    as (Hzero' & Hnone & _).
  split; [apply Hzero; right; exists EmptyString; split; reflexivity|].
  split; [apply (Hsome EmptyString); reflexivity|].
  split; [apply Hzero'; now left|].
  apply Hnone. reflexivity.
Defined.

Lemma android_init_outcome_witness :
  let W := scripted 0 two_segments in
  fst (Windows.whisper_wrapper_init W (Windows.initial []) (Some "ggml-tiny.bin"))
  = 4096
  /\ exists st',
       Android.Java_com_securevox_app_whisper_WhisperLib_initContext W
         (Android.initial []) (Some "ggml-tiny.bin")
       = Some (4096, st')
       /\ Android.logcat st'
          = [(Android.ANDROID_LOG_INFO, "Loading model from: ggml-tiny.bin");
             (Android.ANDROID_LOG_INFO, "Model loaded successfully")].
Proof.
  intros W.
  destruct (android_init_outcome W (Android.initial []) (Windows.initial [])
              "ggml-tiny.bin") as (st' & Hret & _ & _ & Hlog & Hsame).
  split; [apply Hsame; reflexivity|].
  exists st'. split; [exact Hret | exact Hlog].
Defined.

Lemma n_threads_capped_witness :
  n_threads (Windows.transcribe_params (scripted 0 []) 8 None 0 0) = 4
  /\ n_threads (Windows.transcribe_params (scripted 0 []) 2 None 0 0) = 2
  /\ n_threads (Windows.transcribe_params (scripted 0 []) 0 None 0 0) = 0
  /\ n_threads (Windows.transcribe_params (scripted 0 []) 4294967295 None 0 0) < 0.
Proof.
  destruct (n_threads_capped (scripted 0 []) 8 (fun _ => 0) None "en" 0 0 0)
    as (_ & _ & H8 & _).
  destruct (n_threads_capped (scripted 0 []) 2 (fun _ => 0) None "en" 0 0 0)
    as (_ & _ & H2 & _).
  destruct (n_threads_capped (scripted 0 []) 0 (fun _ => 0) None "en" 0 0 0)
    as (_ & _ & _ & H0 & _).
  destruct (n_threads_capped (scripted 0 []) 4294967295 (fun _ => 0) None "en"
              0 0 0) as (_ & _ & _ & _ & Hbig).
  split; [apply H8; lia|].
  split; [apply H2; lia|].
  split; [apply H0; reflexivity|].
  apply Hbig. lia.
Defined.

Lemma progress_forwarding_witness :
  77 <> 0
  /\ relay_fire
       (installed_callback (Windows.transcribe_params (scripted 0 []) 8 None 77 5))
       40
     = [call_function 77 40 5].
Proof.
  split; [discriminate|].
  apply (progress_forwarding (scripted 0 []) 8 (fun _ => 9) None "en" 77 5 77 40).
  discriminate.
Defined.

Lemma is_multilingual_agree_witness :
  let W := scripted 0 two_segments in
  Windows.whisper_wrapper_is_multilingual W (Windows.initial []) 4096
  = (1, Windows.entered (called_is_multilingual 4096) [] (Windows.initial []))
  /\ snd (Windows.whisper_wrapper_is_multilingual W (Windows.initial []) 0)
     = Windows.initial [].
Proof.
  intros W.
  destruct (is_multilingual_agree W (Windows.initial []) (Android.initial [])
              4096) as (_ & Hone & _).
  destruct (is_multilingual_agree W (Windows.initial []) (Android.initial [])
              0) as (_ & _ & _ & _ & Hnull & _).
  split.
  - apply injective_projections; [|reflexivity].
    apply Hone. split; [discriminate | reflexivity].
  - apply Hnull. reflexivity.
Defined.

Lemma windows_transcribe_single_run_witness :
  let W := scripted 0 two_segments in
  Windows.calls
    (snd (Windows.whisper_wrapper_transcribe W 8 (Windows.initial []) 4096
            (Some [0; 0]) 2 None 0 0))
  = [called_full 4096 (Windows.transcribe_params W 8 None 0 0) 2]
  /\ Windows.calls
       (snd (Windows.whisper_wrapper_transcribe W 8 (Windows.initial []) 4096
               (Some [0; 0]) (-1) None 0 0))
     = [].
Proof.
  intros W.
  destruct (windows_transcribe_single_run W 8 (Windows.initial []) 4096
              (Some [0; 0]) 2 None 0 0) as (_ & Hrun).
  destruct (windows_transcribe_single_run W 8 (Windows.initial []) 4096
              (Some [0; 0]) (-1) None 0 0) as (Hskip & _).
  split.
  - apply (Hrun [0; 0]); [discriminate | reflexivity | lia].
  - apply Hskip. right. right. lia.
Defined.

Lemma android_calls_well_formed_witness :
  let W := scripted 0 two_segments in
  exists st',
    android_run W 8 (fun _ => 0) (Android.initial []) android_session = Some st'
    /\ exists lines new,
         Android.logcat st' = lines
         /\ Android.calls st' = new
         /\ Forall (android_call_ok android_session) new.
Proof.
  intros W. eexists. split; [reflexivity|].
  apply (android_calls_well_formed W 8 (fun _ => 0) (Android.initial []) _
           android_session).
  reflexivity.
Defined.

Lemma android_result_shape_witness :
  let W := scripted 0 [] in
  exists st',
    Android.Java_com_securevox_app_whisper_WhisperLib_transcribeAudio W 8
      (fun _ => 0) (Android.initial []) 4096 (Some [0; 0]) (Some "en") 0
    = Some (Some "[]", st')
    /\ ((Some "[]" = Some EmptyString
         /\ exists msg,
              last (Android.logcat st') (Android.ANDROID_LOG_INFO, EmptyString)
              = (Android.ANDROID_LOG_ERROR, msg))
        \/ (Some "[]"
            = Some (json_array
                      (map encode_segment
                         (engine_segments W (Android.engine st') 4096)))
            /\ Some "[]" <> Some EmptyString
            /\ last (Android.logcat st') (Android.ANDROID_LOG_INFO, EmptyString)
               = (Android.ANDROID_LOG_INFO,
                  "Transcription complete: "
                  ++ to_string_int
                       (whisper_full_n_segments W (Android.engine st') 4096)
                  ++ " segments"))).
Proof.
  intros W. eexists. split; [reflexivity|].
  apply (android_result_shape W 8 (fun _ => 0) (Android.initial []) _ 4096
           (Some [0; 0]) (Some "en") 0 (Some "[]")).
  reflexivity.
Defined.

Lemma transcribe_result_one_line_witness :
  let W := scripted 0 [(Some (String "010" (String "009" "a")), 0, 1)] in
  exists result,
    fst (Windows.whisper_wrapper_transcribe W 8 (Windows.initial []) 4096
           (Some [0; 0]) 2 None 0 0)
    = Some result
    /\ has_none is_raw_break result = true.
Proof.
  intros W. eexists. split; [reflexivity|].
  match goal with
  | |- has_none _ ?result = true =>
      destruct (transcribe_result_one_line W 8 (fun _ => 0) (Windows.initial [])
                  (Android.initial []) (Android.initial []) 4096 (Some [0; 0])
                  2 None 0 0 result) as [HW _]
  end.
  apply HW. reflexivity.
Defined.
